(** * Format handlers of the converter: HEIC/HEIF, ANI and Meyda

    A shallow embedding of the three format handlers
    ([src/handlers/heic.ts], [ani.ts] and the Meyda spectrogram handler)
    together with the properties their contract states.

    JavaScript strings are modelled as [string]; every character the
    handlers test for is ASCII, and no byte of a multi-byte sequence equals
    an ASCII character, so the suffix tests below agree with the source on
    encoded names.  A [Uint8Array] is a [list byte].  Calls into the host
    (codecs, canvas, audio) are functions of a [Host] record, and every
    such call is recorded in a log carried by the [Async] monad. *)

From Stdlib Require Import String Ascii List Strings.Byte Lia ZArith QArith.
From Stdlib Require Import Decimal DecimalFacts DecimalString DecimalNat.
From stdpp Require Import base list strings.

Local Open Scope list_scope.

(** ** JavaScript string primitives used by the handlers *)

Module JsString.

(** ASCII lower-casing, the canonicalisation of the [i] regex flag on the
    letters the handlers' patterns contain. *)
Definition lower (c : ascii) : ascii :=
  let n := nat_of_ascii c in
  if (65 <=? n)%nat && (n <=? 90)%nat then ascii_of_nat (n + 32) else c.

Fixpoint ci_eqb (s t : string) : bool :=
  match s, t with
  | EmptyString, EmptyString => true
  | String a s', String b t' => Ascii.eqb (lower a) (lower b) && ci_eqb s' t'
  | _, _ => false
  end.

Definition is_dot (c : ascii) : bool := Ascii.eqb c "."%char.

Fixpoint no_dot (s : string) : bool :=
  match s with
  | EmptyString => true
  | String c r => negb (is_dot c) && no_dot r
  end.

(** [/\.(heic|heif)$/i] matched against the whole of [s]. *)
Definition matches_heic_ext (s : string) : bool :=
  ci_eqb s ".heic" || ci_eqb s ".heif".

(** [s.replace(/\.(heic|heif)$/i, '')]: the leftmost position at which the
    pattern matches up to the end of the string is cut off. *)
Fixpoint replace_heic_ext (s : string) : string :=
  if matches_heic_ext s then EmptyString
  else match s with
       | EmptyString => EmptyString
       | String c r => String c (replace_heic_ext r)
       end.

(** [/\.[^.]+$/] matched against the whole of [s]. *)
Definition matches_last_ext (s : string) : bool :=
  match s with
  | String c (String d r) => is_dot c && no_dot (String d r)
  | _ => false
  end.

(** [s.replace(/\.[^.]+$/, '')]. *)
Fixpoint replace_last_ext (s : string) : string :=
  if matches_last_ext s then EmptyString
  else match s with
       | EmptyString => EmptyString
       | String c r => String c (replace_last_ext r)
       end.

(** [s.split(".")]: the pieces between dots, never an empty array. *)
Fixpoint split_dot (s : string) : list string :=
  match s with
  | EmptyString => [EmptyString]
  | String c r =>
      if is_dot c then EmptyString :: split_dot r
      else match split_dot r with
           | [] => [String c EmptyString]
           | p :: ps => String c p :: ps
           end
  end.

(** [arr[0]] read as a string operand of [+]. *)
Definition index0 (arr : list string) : string :=
  match arr with
  | [] => "undefined"
  | x :: _ => x
  end.

(** [String(n)] for a non-negative integer. *)
Definition of_nat (n : nat) : string := NilZero.string_of_uint (Nat.to_uint n).

(** The first [n] characters of [pad] repeated; [cur] is what is left of
    the current repetition. *)
Fixpoint fill (n : nat) (cur pad : string) : string :=
  match n with
  | O => EmptyString
  | S k =>
      match cur with
      | String c r => String c (fill k r pad)
      | EmptyString =>
          match pad with
          | String c r => String c (fill k r pad)
          | EmptyString => EmptyString
          end
      end
  end.

(** [s.padStart(target, pad)]. *)
Definition padStart (target : nat) (pad s : string) : string :=
  if (target <=? String.length s)%nat then s
  else fill (target - String.length s) pad pad +:+ s.

(** [t.includes(s)]. *)
Fixpoint includes (s t : string) : bool :=
  String.prefix s t ||
  match t with
  | EmptyString => false
  | String _ r => includes s r
  end.

Fixpoint lower_string (s : string) : string :=
  match s with
  | EmptyString => EmptyString
  | String c r => String (lower c) (lower_string r)
  end.

End JsString.

(** [s] occurs in [t]. *)
Definition Contains (s t : string) : Prop :=
  exists pre post, t = pre +:+ s +:+ post.

(** ** Values, completions and the log of host calls *)

Definition Uint8Array := list byte.

(** [FileData] of [FormatHandler.ts]. *)
Record FileData := { name : string; bytes : Uint8Array }.

(** [FileFormat] of [FormatHandler.ts]; [category] and [lossless] are
    optional in the interface. *)
Record FileFormat := {
  format_name : string;
  format : string;
  extension : string;
  mime : string;
  from : bool;
  to : bool;
  internal : string;
  category : option string;
  lossless : option bool
}.

Record Blob := { blob_bytes : Uint8Array; blob_type : string }.

(** A thrown JavaScript value, as far as the handlers look at it:
    [thrown_message] is [err?.message] when it is neither [null] nor
    [undefined], and [thrown_string] is [String(err)]. *)
Record JsThrown := { thrown_message : option string; thrown_string : string }.

(** [new Error(msg)]. *)
Definition new_Error (msg : string) : JsThrown :=
  {| thrown_message := Some msg; thrown_string := "Error: " +:+ msg |}.

(** [throw "..."] and [reject("...")] with a string primitive. *)
Definition thrown_str (s : string) : JsThrown :=
  {| thrown_message := None; thrown_string := s |}.

(** [`${err?.message ?? err}`]. *)
Definition cause_text (err : JsThrown) : string :=
  match thrown_message err with
  | Some m => m
  | None => thrown_string err
  end.

Inductive Completion (A : Type) : Type :=
  | Normal (a : A)
  | Throw (e : JsThrown).
Arguments Normal {A} a.
Arguments Throw {A} e.

Record ImageBitmap := {
  bitmap_width : nat;
  bitmap_height : nat;
  bitmap_pixels : Uint8Array
}.

(** [ImageData]: RGBA bytes with the width and height given to the
    constructor. *)
Record ImageData := {
  data : list Z;
  imagedata_width : nat;
  imagedata_height : nat
}.

Inductive DrawOp :=
  | DrawImage (bitmap : ImageBitmap) (x y : nat)
  | PutImageData (image : ImageData) (x y : nat).

(** A canvas: its size and what was drawn since the size was last set
    (setting [width] or [height] clears the bitmap). *)
Record Canvas := {
  canvas_width : nat;
  canvas_height : nat;
  canvas_drawn : list DrawOp
}.

Inductive Heic2anyResult :=
  | OneBlob (b : Blob)
  | BlobArray (bs : list Blob).

(** The calls into codecs the host or a library provides. *)
Inductive HostCall :=
  | CallHeic2any (blob : Blob) (toType : string) (quality : Q)
  | CallCreateImageBitmap (blob : Blob)
  | CallToBlob (canvas : Canvas) (type : string) (quality : option Q)
  | CallDecodeAudioData (input : Uint8Array).

(** An awaited computation: the host calls it made, in order, and how it
    completed. *)
Definition Async (A : Type) : Type := (list HostCall * Completion A)%type.

Definition ret {A} (a : A) : Async A := ([], Normal a).

Definition throw {A} (e : JsThrown) : Async A := ([], Throw e).

Definition bind {A B} (m : Async A) (k : A -> Async B) : Async B :=
  match m with
  | (l1, Normal a) => (l1 ++ fst (k a), snd (k a))
  | (l1, Throw e) => (l1, Throw e)
  end.

(** [try { m } catch (err) { h err }]. *)
Definition try_catch {A} (m : Async A) (h : JsThrown -> Async A) : Async A :=
  match m with
  | (l1, Normal a) => (l1, Normal a)
  | (l1, Throw e) => (l1 ++ fst (h e), snd (h e))
  end.

(** A host call, logged. *)
Definition call {A} (ev : HostCall) (r : Completion A) : Async A := ([ev], r).

Notation "'let*' x ':=' m 'in' k" := (bind m (fun x => k))
  (at level 10, x name, m at level 100, k at level 200).

Definition calls {A} (m : Async A) : list HostCall := fst m.
Definition outcome {A} (m : Async A) : Completion A := snd m.

(** ** The host *)

(** [AudioBuffer]: the sample rate and the samples of channel 0. *)
Record AudioBuffer (float : Type) := {
  sampleRate : float;
  channelData0 : list float
}.
Arguments sampleRate {float} _.
Arguments channelData0 {float} _.

(** What the handlers ask of the runtime and of the libraries they import.
    [float] is the type of JavaScript numbers that are not integers. *)
Record Host (float : Type) := {
  (** [heic2any({ blob, toType, quality })] *)
  heic2any : Blob -> string -> Q -> Completion Heic2anyResult;
  (** [createImageBitmap(blob)] *)
  createImageBitmap : Blob -> Completion ImageBitmap;
  (** whether [canvas.getContext("2d")] yields a context *)
  getContext_2d : bool;
  (** [canvas.toBlob(callback, type, quality)]: what the callback receives *)
  toBlob : Canvas -> string -> option Q -> option Blob;
  (** [audio.canPlayType(type)]: the empty string, "maybe" or "probably" *)
  canPlayType : string -> string;
  (** what [new AudioContext()] throws, if the constructor throws *)
  audioContext_error : option JsThrown;
  (** [audioContext.decodeAudioData(buffer)] *)
  decodeAudioData : Uint8Array -> Completion (AudioBuffer float);
  (** [Meyda.windowing(frame, name)] *)
  windowing : list float -> string -> list float;
  (** [Meyda.extract(feature, signal)] under the given [Meyda.bufferSize]
      and [Meyda.sampleRate]; [None] when the result is not a
      [Float32Array] *)
  extract : nat -> float -> string -> list float -> option (list float);
  (** [Math.floor(x * k)] as the 32-bit integer the bit operators see *)
  floor_mul : float -> Z -> Z;
  (** what [new ImageData(data, w, h)] throws when the sizes disagree *)
  imageData_error : JsThrown
}.
Arguments heic2any {float} _.
Arguments createImageBitmap {float} _.
Arguments getContext_2d {float} _.
Arguments toBlob {float} _.
Arguments canPlayType {float} _.
Arguments audioContext_error {float} _.
Arguments decodeAudioData {float} _.
Arguments windowing {float} _.
Arguments extract {float} _.
Arguments floor_mul {float} _.
Arguments imageData_error {float} _.

(** The double quote character of the template literals. *)
Definition dquote : string := String "034"%char EmptyString.

(** ** [CommonFormats] *)

(** Modelled from the spec: [src/CommonFormats.ts] is not among the
    sources.  A format definition carries the descriptor fields that do not
    depend on the handler; [builder] fixes the internal key, and
    [allowFrom], [allowTo] and [markLossless] set the directionality and
    losslessness the Capability Descriptor of the data model names. *)
Record FormatDefinition := {
  def_name : string;
  def_format : string;
  def_extension : string;
  def_mime : string;
  def_category : string
}.

Definition builder (d : FormatDefinition) (internalKey : string) : FileFormat :=
  {| format_name := def_name d; format := def_format d;
     extension := def_extension d; mime := def_mime d;
     from := false; to := false; internal := internalKey;
     category := Some (def_category d); lossless := Some false |}.

Definition allowFrom (f : FileFormat) : FileFormat :=
  {| format_name := format_name f; format := format f;
     extension := extension f; mime := mime f;
     from := true; to := to f; internal := internal f;
     category := category f; lossless := lossless f |}.

Definition allowTo (f : FileFormat) : FileFormat :=
  {| format_name := format_name f; format := format f;
     extension := extension f; mime := mime f;
     from := from f; to := true; internal := internal f;
     category := category f; lossless := lossless f |}.

Definition markLossless (f : FileFormat) : FileFormat :=
  {| format_name := format_name f; format := format f;
     extension := extension f; mime := mime f;
     from := from f; to := to f; internal := internal f;
     category := category f; lossless := Some true |}.

(** [def.supported(internal, from, to)]. *)
Definition supported (d : FormatDefinition) (internalKey : string)
    (fromFlag toFlag : bool) : FileFormat :=
  {| format_name := def_name d; format := def_format d;
     extension := def_extension d; mime := def_mime d;
     from := fromFlag; to := toFlag; internal := internalKey;
     category := Some (def_category d); lossless := Some false |}.

Record CommonFormats := {
  HEIC : FormatDefinition;
  HEIF : FormatDefinition;
  PNG : FormatDefinition;
  JPEG : FormatDefinition;
  WEBP : FormatDefinition
}.

(** ** The HEIC/HEIF handler ([src/handlers/heic.ts]) *)

Module HEICHandler.

Record t := {
  handlerName : string;
  ready : bool;
  supportedFormats : list FileFormat
}.

(** The field initialisers of the class. *)
Definition new (cf : CommonFormats) : t :=
  {| handlerName := "heic2any";
     ready := false;
     supportedFormats :=
       [ allowTo (allowFrom (builder (HEIC cf) "heic"));
         allowTo (allowFrom (builder (HEIF cf) "heif"));
         markLossless (allowTo (allowFrom (builder (PNG cf) "png")));
         allowTo (allowFrom (builder (JPEG cf) "jpeg"));
         allowTo (allowFrom (builder (WEBP cf) "webp")) ] |}.

Definition init (this : t) : t :=
  {| handlerName := handlerName this;
     ready := true;
     supportedFormats := supportedFormats this |}.

Definition quality : Q := 92 # 100.

(** The name of frame [i] of a multi-frame input. *)
Definition frameName (baseName : string) (i : nat) (ext : string) : string :=
  baseName +:+ "_" +:+ JsString.padStart 3 "0" (JsString.of_nat (i + 1))
           +:+ "." +:+ ext.

(** [for (let i = 0; i < blobs.length; i++) outputFiles.push(...)], from
    index [i] on; [blobs] is what remains from that index. *)
Fixpoint pushFrames (baseName ext : string) (blobs : list Blob) (i : nat)
    (outputFiles : list FileData) : list FileData :=
  match blobs with
  | [] => outputFiles
  | b :: rest =>
      pushFrames baseName ext rest (S i)
        (outputFiles ++ [ {| name := frameName baseName i ext;
                             bytes := blob_bytes b |} ])
  end.

Section WithHost.
Context {float : Type} (host : Host float).

(** The body of [#decodeHeic]'s loop over [inputFiles], with the
    [outputFiles] pushed so far. *)
Fixpoint decodeLoop (inputFormat outputFormat : FileFormat)
    (inputFiles outputFiles : list FileData) : Async (list FileData) :=
  match inputFiles with
  | [] => ret outputFiles
  | inputFile :: rest =>
      let toType := mime outputFormat in
      let inputBlob :=
        {| blob_bytes := bytes inputFile; blob_type := mime inputFormat |} in
      let* result :=
        try_catch
          (call (CallHeic2any inputBlob toType quality)
                (heic2any host inputBlob toType quality))
          (fun err =>
             throw (new_Error ("Could not decode HEIC/HEIF file " +:+ dquote
                               +:+ name inputFile +:+ dquote +:+ ": "
                               +:+ cause_text err))) in
      let blobs := match result with
                   | BlobArray bs => bs
                   | OneBlob b => [b]
                   end in
      let baseName := JsString.replace_heic_ext (name inputFile) in
      decodeLoop inputFormat outputFormat rest
        match blobs with
        | [b] =>
            outputFiles ++ [ {| name := baseName +:+ "." +:+ extension outputFormat;
                                bytes := blob_bytes b |} ]
        | _ => pushFrames baseName (extension outputFormat) blobs 0 outputFiles
        end
  end.

Definition decodeHeic (inputFiles : list FileData)
    (inputFormat outputFormat : FileFormat) : Async (list FileData) :=
  decodeLoop inputFormat outputFormat inputFiles [].

Definition encodeUnsupported : string :=
  "HEIC/HEIF encoding is not supported in this browser. " +:+
  "Native encoding requires Safari on macOS (High Sierra or later) or iOS (11 or later). " +:+
  "Consider converting to PNG or JPEG instead.".

(** The body of [#encodeHeic]'s loop. *)
Fixpoint encodeLoop (inputFormat outputFormat : FileFormat)
    (inputFiles outputFiles : list FileData) : Async (list FileData) :=
  match inputFiles with
  | [] => ret outputFiles
  | inputFile :: rest =>
      let inputBlob :=
        {| blob_bytes := bytes inputFile; blob_type := mime inputFormat |} in
      let* bitmap :=
        try_catch
          (call (CallCreateImageBitmap inputBlob)
                (createImageBitmap host inputBlob))
          (fun err =>
             throw (new_Error ("Could not decode source image " +:+ dquote
                               +:+ name inputFile +:+ dquote +:+ ": "
                               +:+ cause_text err))) in
      if negb (getContext_2d host)
      then throw (new_Error "Failed to obtain 2D canvas context.")
      else
        let canvas :=
          {| canvas_width := bitmap_width bitmap;
             canvas_height := bitmap_height bitmap;
             canvas_drawn := [DrawImage bitmap 0 0] |} in
        let* outputBlob :=
          call (CallToBlob canvas (mime outputFormat) (Some quality))
               (Normal (toBlob host canvas (mime outputFormat) (Some quality))) in
        match outputBlob with
        | None => throw (new_Error encodeUnsupported)
        | Some blob =>
            let baseName := JsString.replace_last_ext (name inputFile) in
            encodeLoop inputFormat outputFormat rest
              (outputFiles ++ [ {| name := baseName +:+ "." +:+ extension outputFormat;
                                   bytes := blob_bytes blob |} ])
        end
  end.

Definition encodeHeic (inputFiles : list FileData)
    (inputFormat outputFormat : FileFormat) : Async (list FileData) :=
  encodeLoop inputFormat outputFormat inputFiles [].

Definition isHeic (f : FileFormat) : bool :=
  String.eqb (internal f) "heic" || String.eqb (internal f) "heif".

Definition doConvert (this : t) (inputFiles : list FileData)
    (inputFormat outputFormat : FileFormat) : Async (list FileData) :=
  let isHeicInput := isHeic inputFormat in
  let isHeicOutput := isHeic outputFormat in
  if isHeicInput && negb isHeicOutput
  then decodeHeic inputFiles inputFormat outputFormat
  else if negb isHeicInput && isHeicOutput
  then encodeHeic inputFiles inputFormat outputFormat
  else (* HEIC <-> HEIC passthrough (same format, no-op) *)
    ret (map (fun f => {| name := name f; bytes := bytes f |}) inputFiles).

End WithHost.

End HEICHandler.

(** ** The ANI handler ([ani.ts]) *)

Module aniHandler.

Record t := {
  handlerName : string;
  supportedFormats : option (list FileFormat);
  ready : bool
}.

Definition new : t :=
  {| handlerName := "ani"; supportedFormats := None; ready := false |}.

Definition ico : FileFormat :=
  {| format_name := "Microsoft Windows ICO"; format := "ico";
     extension := "ico"; mime := "image/vnd.microsoft.icon";
     from := true; to := true; internal := "ico";
     category := Some "image"; lossless := Some false |}.

Definition ani : FileFormat :=
  {| format_name := "Microsoft Windows ANI"; format := "ani";
     extension := "ani"; mime := "application/x-navi-animation";
     from := true; to := true; internal := "ico";
     category := Some "image"; lossless := Some false |}.

Definition init (cf : CommonFormats) (this : t) : t :=
  {| handlerName := handlerName this;
     supportedFormats := Some [ supported (PNG cf) "apng" true true; ico; ani ];
     ready := true |}.

(** [doConvert] is not embedded.  Its text in the source is not a
    well-formed function body: after [return outputFiles] the four
    conditions are each followed by a closing brace where an opening one
    is needed, so the module cannot be parsed and the function has no
    behaviour to model. *)

End aniHandler.

(** ** The Meyda handler (audio to spectrogram image) *)

Module meydaHandler.

Inductive AudioContext := AudioContextObject.
Inductive CanvasRenderingContext2D := Context2DObject.

Record t := {
  handlerName : string;
  supportedFormats : list FileFormat;
  ready : bool;
  audioContext : option AudioContext;
  canvas : option Canvas;
  ctx : option CanvasRenderingContext2D
}.

Definition png : FileFormat :=
  {| format_name := "Portable Network Graphics"; format := "png";
     extension := "png"; mime := "image/png";
     from := false; to := true; internal := "png";
     category := None; lossless := None |}.

Definition jpeg : FileFormat :=
  {| format_name := "Joint Photographic Experts Group JFIF"; format := "jpeg";
     extension := "jpg"; mime := "image/jpeg";
     from := false; to := true; internal := "jpeg";
     category := None; lossless := None |}.

Definition webp : FileFormat :=
  {| format_name := "WebP"; format := "webp";
     extension := "webp"; mime := "image/webp";
     from := false; to := true; internal := "webp";
     category := None; lossless := None |}.

Definition wav : FileFormat :=
  {| format_name := "Waveform Audio File Format"; format := "wav";
     extension := "wav"; mime := "audio/wav";
     from := true; to := false; internal := "wav";
     category := None; lossless := None |}.

Definition mp3 : FileFormat :=
  {| format_name := "MP3 Audio"; format := "mp3";
     extension := "mp3"; mime := "audio/mpeg";
     from := true; to := false; internal := "mp3";
     category := None; lossless := None |}.

Definition ogg : FileFormat :=
  {| format_name := "Ogg Audio"; format := "ogg";
     extension := "ogg"; mime := "audio/ogg";
     from := true; to := false; internal := "ogg";
     category := None; lossless := None |}.

Definition flac : FileFormat :=
  {| format_name := "Free Lossless Audio Codec"; format := "flac";
     extension := "flac"; mime := "audio/flac";
     from := true; to := false; internal := "flac";
     category := None; lossless := None |}.

(** The field initialisers of the class. *)
Definition new : t :=
  {| handlerName := "meyda";
     supportedFormats := [png; jpeg; webp];
     ready := false;
     audioContext := None; canvas := None; ctx := None |}.

(** A string in a condition: only the empty string is falsy. *)
Definition truthy (s : string) : bool := negb (String.eqb s EmptyString).

(** [if (dummy.canPlayType(mime)) formats.push(f)]. *)
Definition pushIfPlayable {float} (host : Host float) (f : FileFormat)
    (formats : list FileFormat) : list FileFormat :=
  if truthy (canPlayType host (mime f)) then formats ++ [f] else formats.

(** A canvas as [document.createElement("canvas")] returns it. *)
Definition createCanvas : Canvas :=
  {| canvas_width := 300; canvas_height := 150; canvas_drawn := [] |}.

(** [init]: the handler after the call and how the call completed. *)
Definition init {float} (host : Host float) (this : t) : t * Completion unit :=
  let formats :=
    pushIfPlayable host flac
      (pushIfPlayable host ogg
        (pushIfPlayable host mp3
          (pushIfPlayable host wav (supportedFormats this)))) in
  match audioContext_error host with
  | Some err =>
      (* [new AudioContext()] throws: nothing after it is assigned *)
      ({| handlerName := handlerName this;
          supportedFormats := formats;
          ready := ready this;
          audioContext := audioContext this;
          canvas := canvas this;
          ctx := ctx this |},
       Throw err)
  | None =>
      if negb (getContext_2d host)
      then ({| handlerName := handlerName this;
               supportedFormats := formats;
               ready := ready this;
               audioContext := Some AudioContextObject;
               canvas := Some createCanvas;
               ctx := ctx this |},
            Throw (thrown_str "Failed to create 2D rendering context."))
      else ({| handlerName := handlerName this;
               supportedFormats := formats;
               ready := true;
               audioContext := Some AudioContextObject;
               canvas := Some createCanvas;
               ctx := Some Context2DObject |},
            Normal tt)
  end.

Definition bufferSize : nat := 2048.

(** The four bytes written for one spectrum value. *)
Definition pixel {float} (host : Host float) (x : float) : list Z :=
  let int := floor_mul host x 16777215 in
  [ Z.land int 255;
    Z.land (Z.shiftr int 8) 255;
    Z.land (Z.shiftr int 16) 255;
    255%Z ].

(** [new ImageData(pixels, width, height)]. *)
Definition newImageData {float} (host : Host float) (pixels : list Z)
    (width height : nat) : Completion ImageData :=
  if negb (length pixels =? 0)%nat && (length pixels =? 4 * width * height)%nat
  then Normal {| data := pixels; imagedata_width := width;
                 imagedata_height := height |}
  else Throw (imageData_error host).

Section WithHost.
Context {float : Type} (host : Host float).

(** [for (let i = ...; i < imageWidth; i++)] with [n = imageWidth - i]
    columns still to draw on [cv]. *)
Fixpoint renderColumns (rate : float) (samples : list float)
    (imageHeight n i : nat) (cv : Canvas) : Async Canvas :=
  match n with
  | O => ret cv
  | S n' =>
      let frame := take ((i + 1) * bufferSize - i * bufferSize)
                        (drop (i * bufferSize) samples) in
      let filtered := windowing host frame "hanning" in
      match extract host bufferSize rate "amplitudeSpectrum" filtered with
      | None => throw (thrown_str "Failed to extract audio features!")
      | Some spectrum =>
          let pixels := flat_map (pixel host) spectrum in
          let* imageData := ([], newImageData host pixels 1 imageHeight) in
          renderColumns rate samples imageHeight n' (S i)
            {| canvas_width := canvas_width cv;
               canvas_height := canvas_height cv;
               canvas_drawn := canvas_drawn cv ++ [PutImageData imageData i 0] |}
      end
  end.

(** The loop of [doConvert] over [inputFiles].  The handler's canvas is
    given its size anew for every file, which clears it, so the canvas a
    file is drawn on does not depend on the files before. *)
Fixpoint convertLoop (outputFormat : FileFormat)
    (inputFiles outputFiles : list FileData) : Async (list FileData) :=
  match inputFiles with
  | [] => ret outputFiles
  | inputFile :: rest =>
      let inputBytes := bytes inputFile in
      let* audioData :=
        call (CallDecodeAudioData inputBytes) (decodeAudioData host inputBytes) in
      let samples := channelData0 audioData in
      let imageWidth := (length samples / bufferSize)%nat in
      let imageHeight := (bufferSize / 2)%nat in
      let* drawn :=
        renderColumns (sampleRate audioData) samples imageHeight imageWidth 0
          {| canvas_width := imageWidth; canvas_height := imageHeight;
             canvas_drawn := [] |} in
      let* outBytes :=
        call (CallToBlob drawn (mime outputFormat) None)
             match toBlob host drawn (mime outputFormat) None with
             | None => Throw (thrown_str "Canvas output failed.")
             | Some blob => Normal (blob_bytes blob)
             end in
      let outName := JsString.index0 (JsString.split_dot (name inputFile))
                     +:+ "." +:+ extension outputFormat in
      convertLoop outputFormat rest
        (outputFiles ++ [ {| name := outName; bytes := outBytes |} ])
  end.

Definition doConvert (this : t) (inputFiles : list FileData)
    (_inputFormat outputFormat : FileFormat) : Async (list FileData) :=
  if negb (ready this)
     || negb (bool_decide (is_Some (audioContext this)))
     || negb (bool_decide (is_Some (canvas this)))
     || negb (bool_decide (is_Some (ctx this)))
  then throw (thrown_str "Handler not initialized!")
  else convertLoop outputFormat inputFiles [].

End WithHost.

End meydaHandler.

(** ** Derived notions used in the statements *)

(** The blob a handler wraps an input file in. *)
Definition blobOf (inputFormat : FileFormat) (f : FileData) : Blob :=
  {| blob_bytes := bytes f; blob_type := mime inputFormat |}.

(** The canvas onto which the encode branch draws a bitmap. *)
Definition canvasOf (bitmap : ImageBitmap) : Canvas :=
  {| canvas_width := bitmap_width bitmap;
     canvas_height := bitmap_height bitmap;
     canvas_drawn := [DrawImage bitmap 0 0] |}.

Definition blobsOf (r : Heic2anyResult) : list Blob :=
  match r with
  | BlobArray bs => bs
  | OneBlob b => [b]
  end.

(** The files the decode branch pushes for one input whose decode gave [r]. *)
Definition decodedFiles (outputFormat : FileFormat) (f : FileData)
    (r : Heic2anyResult) : list FileData :=
  let baseName := JsString.replace_heic_ext (name f) in
  match blobsOf r with
  | [b] => [ {| name := baseName +:+ "." +:+ extension outputFormat;
                bytes := blob_bytes b |} ]
  | bs => HEICHandler.pushFrames baseName (extension outputFormat) bs 0 []
  end.

(** What the decode branch pushes for [f] under [host]; nothing when the
    decode is rejected. *)
Definition decodeOutputs {float} (host : Host float)
    (inputFormat outputFormat : FileFormat) (f : FileData) : list FileData :=
  match heic2any host (blobOf inputFormat f) (mime outputFormat)
                 HEICHandler.quality with
  | Normal r => decodedFiles outputFormat f r
  | Throw _ => []
  end.

(** The call the decode branch makes for [f]. *)
Definition heic2anyCall (inputFormat outputFormat : FileFormat)
    (f : FileData) : HostCall :=
  CallHeic2any (blobOf inputFormat f) (mime outputFormat) HEICHandler.quality.

(** The decode capability accepts [f]. *)
Definition decodes {float} (host : Host float)
    (inputFormat outputFormat : FileFormat) (f : FileData) : Prop :=
  exists r, heic2any host (blobOf inputFormat f) (mime outputFormat)
                     HEICHandler.quality = Normal r.

(** The encode branch gets a bitmap and output bytes for [f]. *)
Definition encodes {float} (host : Host float)
    (inputFormat outputFormat : FileFormat) (f : FileData) : Prop :=
  exists bitmap blob,
    createImageBitmap host (blobOf inputFormat f) = Normal bitmap /\
    toBlob host (canvasOf bitmap) (mime outputFormat)
           (Some HEICHandler.quality) = Some blob.

(** What the encode branch pushes for [f] under [host]; nothing when no
    bitmap or no output bytes are obtained. *)
Definition encodeOutputs {float} (host : Host float)
    (inputFormat outputFormat : FileFormat) (f : FileData) : list FileData :=
  match createImageBitmap host (blobOf inputFormat f) with
  | Normal bitmap =>
      match toBlob host (canvasOf bitmap) (mime outputFormat)
                   (Some HEICHandler.quality) with
      | Some blob =>
          [ {| name := JsString.replace_last_ext (name f) +:+ "."
                       +:+ extension outputFormat;
               bytes := blob_bytes blob |} ]
      | None => []
      end
  | Throw _ => []
  end.

(** [n] zeros. *)
Fixpoint zeros (n : nat) : string :=
  match n with
  | O => EmptyString
  | S k => String "0"%char (zeros k)
  end.

(** [s] is the decimal numeral of [n], padded with zeros on the left to
    three characters when it is shorter. *)
Definition ZeroPadded3 (n : nat) (s : string) : Prop :=
  (exists k, s = zeros k +:+ JsString.of_nat n) /\
  String.length s = Nat.max 3 (String.length (JsString.of_nat n)).

(** Reading a decimal numeral, leading zeros allowed. *)
Definition parseDecimal (s : string) : option nat :=
  option_map Nat.of_uint (NilZero.uint_of_string s).

(** Image and audio descriptors, told apart by their container type. *)
Definition isImage (f : FileFormat) : bool := String.prefix "image/" (mime f).
Definition isAudio (f : FileFormat) : bool := String.prefix "audio/" (mime f).

(** [n] probes of the Meyda handler in a row, whatever their outcome. *)
Fixpoint probes {float} (host : Host float) (n : nat)
    (this : meydaHandler.t) : meydaHandler.t :=
  match n with
  | O => this
  | S k => fst (meydaHandler.init host (probes host k this))
  end.

(** The Meyda handler passes the guard at the head of [doConvert]. *)
Definition meydaInitialized (this : meydaHandler.t) : Prop :=
  meydaHandler.ready this = true /\
  is_Some (meydaHandler.audioContext this) /\
  is_Some (meydaHandler.canvas this) /\
  is_Some (meydaHandler.ctx this).

(** The audio descriptors a probe of the Meyda handler appends. *)
Definition playableAudio {float} (host : Host float) : list FileFormat :=
  filter (fun f => meydaHandler.truthy (canPlayType host (mime f)) = true)
         [meydaHandler.wav; meydaHandler.mp3; meydaHandler.ogg; meydaHandler.flac].

(** The format tags, extensions and names any of the three handlers
    declares, in lower case. *)
Definition formatWords : list string :=
  [ "heic"; "heif"; "png"; "jpeg"; "jpg"; "webp"; "apng"; "ico"; "ani";
    "wav"; "mp3"; "ogg"; "flac" ].

(** The message names one of the formats. *)
Definition namesAFormat (msg : string) : bool :=
  existsb (fun w => JsString.includes w (JsString.lower_string msg)) formatWords.

(** The blobs the decode capability returns for [f]; none when it
    rejects the file. *)
Definition decodedBlobs {float} (host : Host float)
    (inputFormat outputFormat : FileFormat) (f : FileData) : list Blob :=
  match heic2any host (blobOf inputFormat f) (mime outputFormat)
                 HEICHandler.quality with
  | Normal r => blobsOf r
  | Throw _ => []
  end.

(** [e] is [.heic] or [.heif], each letter in either case. *)
Definition IsHeicExtension (e : string) : Prop :=
  exists c1 c2 c3 c4 : ascii,
    e = String "."%char (String c1 (String c2 (String c3 (String c4 EmptyString)))) /\
    (c1 = "h" \/ c1 = "H")%char /\
    (c2 = "e" \/ c2 = "E")%char /\
    (c3 = "i" \/ c3 = "I")%char /\
    (c4 = "c" \/ c4 = "C" \/ c4 = "f" \/ c4 = "F")%char.

(** [base] is [s] without its HEIC/HEIF extension: [s] with one such
    ending taken off, or [s] itself when it has no such ending. *)
Definition HeicBaseName (s base : string) : Prop :=
  (exists e, IsHeicExtension e /\ s = base +:+ e) \/
  (base = s /\ forall b e, s = b +:+ e -> ~ IsHeicExtension e).

(** The name ends in a dot and the extension of [outputFormat]. *)
Definition hasExtensionOf (outputFormat : FileFormat) (o : FileData) : Prop :=
  exists stem, name o = stem +:+ "." +:+ extension outputFormat.

(** [e] is a last extension as [/\.[^.]+$/] sees it: one or more
    characters, none of them a dot. *)
Definition isLastExt (e : string) : Prop :=
  e <> EmptyString /\ JsString.no_dot e = true.

(** The canvas the Meyda handler draws for decoded audio: one column per
    full window of 2048 samples, 1024 pixels high. *)
Definition meydaDraw {float} (host : Host float) (audio : AudioBuffer float)
    : Async Canvas :=
  meydaHandler.renderColumns host (sampleRate audio) (channelData0 audio)
    (meydaHandler.bufferSize / 2)
    (length (channelData0 audio) / meydaHandler.bufferSize) 0
    {| canvas_width := length (channelData0 audio) / meydaHandler.bufferSize;
       canvas_height := meydaHandler.bufferSize / 2;
       canvas_drawn := [] |}.




(** ** Sample data for the examples *)

Module Sample.

Definition commonFormats : CommonFormats :=
  {| HEIC := {| def_name := "High Efficiency Image Container";
                def_format := "heic"; def_extension := "heic";
                def_mime := "image/heic"; def_category := "image" |};
     HEIF := {| def_name := "High Efficiency Image File Format";
                def_format := "heif"; def_extension := "heif";
                def_mime := "image/heif"; def_category := "image" |};
     PNG := {| def_name := "Portable Network Graphics";
               def_format := "png"; def_extension := "png";
               def_mime := "image/png"; def_category := "image" |};
     JPEG := {| def_name := "Joint Photographic Experts Group JFIF";
                def_format := "jpeg"; def_extension := "jpeg";
                def_mime := "image/jpeg"; def_category := "image" |};
     WEBP := {| def_name := "WebP";
                def_format := "webp"; def_extension := "webp";
                def_mime := "image/webp"; def_category := "image" |} |}.

Definition heic : FileFormat := allowTo (allowFrom (builder (HEIC commonFormats) "heic")).
Definition heif : FileFormat := allowTo (allowFrom (builder (HEIF commonFormats) "heif")).
Definition png : FileFormat :=
  markLossless (allowTo (allowFrom (builder (PNG commonFormats) "png"))).
Definition jpeg : FileFormat := allowTo (allowFrom (builder (JPEG commonFormats) "jpeg")).

(** A host for the examples.  [heic2any] rejects an empty file, gives one
    blob for a one-byte file and one frame per byte otherwise;
    [createImageBitmap] rejects an empty file; the canvas has no HEIC/HEIF
    encoder and gives no blob for an empty canvas; only WAV is playable;
    the audio decoder rejects an empty file and otherwise returns 2048
    samples, whose spectrum has 1024 values. *)
Definition host : Host Z :=
  {| heic2any := fun blob toType _ =>
       match blob_bytes blob with
       | [] => Throw (new_Error "ERR_LIBHEIF format not supported")
       | [b] => Normal (OneBlob {| blob_bytes := [b]; blob_type := toType |})
       | bs => Normal (BlobArray
                 (map (fun b => {| blob_bytes := [b]; blob_type := toType |}) bs))
       end;
     createImageBitmap := fun blob =>
       match blob_bytes blob with
       | [] => Throw (new_Error "The source image could not be decoded.")
       | bs => Normal {| bitmap_width := 1; bitmap_height := 1;
                         bitmap_pixels := bs |}
       end;
     getContext_2d := true;
     toBlob := fun cv type _ =>
       if String.eqb type "image/heic" || String.eqb type "image/heif"
          || (canvas_width cv =? 0)%nat || (canvas_height cv =? 0)%nat
       then None
       else Some {| blob_bytes := [x89; x50; x4e; x47]%byte; blob_type := type |};
     canPlayType := fun type =>
       if String.eqb type "audio/wav" then "maybe" else EmptyString;
     audioContext_error := None;
     decodeAudioData := fun input =>
       match input with
       | [] => Throw (new_Error "Unable to decode audio data")
       | _ => Normal {| sampleRate := 44100%Z;
                        channelData0 := repeat 0%Z 2048 |}
       end;
     windowing := fun frame _ => frame;
     extract := fun size _ _ signal =>
       Some (repeat 0%Z (size / 2));
     floor_mul := fun x k => (x * k)%Z;
     imageData_error :=
       new_Error "The input data length is not equal to (4 * width * height)." |}.

(** The same host, with a canvas that produces no blob at all. *)
Definition hostNoBlob : Host Z :=
  {| heic2any := heic2any host;
     createImageBitmap := createImageBitmap host;
     getContext_2d := true;
     toBlob := fun _ _ _ => None;
     canPlayType := canPlayType host;
     audioContext_error := audioContext_error host;
     decodeAudioData := decodeAudioData host;
     windowing := windowing host;
     extract := extract host;
     floor_mul := floor_mul host;
     imageData_error := imageData_error host |}.

Definition photo1 : FileData :=
  {| name := "photo.heic"; bytes := [x01]%byte |}.
Definition photo3 : FileData :=
  {| name := "photo.heic"; bytes := [x01; x02; x03]%byte |}.
Definition broken : FileData :=
  {| name := "broken.heic"; bytes := [] |}.
Definition picture : FileData :=
  {| name := "picture.png"; bytes := [x89; x50]%byte |}.
Definition song : FileData :=
  {| name := "my.song.wav"; bytes := [x52; x49; x46; x46]%byte |}.
Definition silence : FileData :=
  {| name := "silence.wav"; bytes := [] |}.

(** The same host, with a [heic2any] that always answers with an array,
    one blob per byte of the file. *)
Definition hostArrays : Host Z :=
  {| heic2any := fun blob toType _ =>
       Normal (BlobArray
                 (map (fun b => {| blob_bytes := [b]; blob_type := toType |})
                      (blob_bytes blob)));
     createImageBitmap := createImageBitmap host;
     getContext_2d := true;
     toBlob := toBlob host;
     canPlayType := canPlayType host;
     audioContext_error := audioContext_error host;
     decodeAudioData := decodeAudioData host;
     windowing := windowing host;
     extract := extract host;
     floor_mul := floor_mul host;
     imageData_error := imageData_error host |}.

(** The same host, with a canvas that encodes every type, HEIC and HEIF
    included. *)
Definition hostSafari : Host Z :=
  {| heic2any := heic2any host;
     createImageBitmap := createImageBitmap host;
     getContext_2d := true;
     toBlob := fun cv type _ =>
       Some {| blob_bytes := [x00; x00; x00; x18]%byte; blob_type := type |};
     canPlayType := canPlayType host;
     audioContext_error := audioContext_error host;
     decodeAudioData := decodeAudioData host;
     windowing := windowing host;
     extract := extract host;
     floor_mul := floor_mul host;
     imageData_error := imageData_error host |}.

(** The same host, where audio contexts cannot be constructed. *)
Definition hostNoAudio : Host Z :=
  {| heic2any := heic2any host;
     createImageBitmap := createImageBitmap host;
     getContext_2d := true;
     toBlob := toBlob host;
     canPlayType := canPlayType host;
     audioContext_error :=
       Some (new_Error "The number of hardware contexts provided has been reached.");
     decodeAudioData := decodeAudioData host;
     windowing := windowing host;
     extract := extract host;
     floor_mul := floor_mul host;
     imageData_error := imageData_error host |}.

(** The same host, without a 2D context. *)
Definition hostNoContext : Host Z :=
  {| heic2any := heic2any host;
     createImageBitmap := createImageBitmap host;
     getContext_2d := false;
     toBlob := toBlob host;
     canPlayType := canPlayType host;
     audioContext_error := audioContext_error host;
     decodeAudioData := decodeAudioData host;
     windowing := windowing host;
     extract := extract host;
     floor_mul := floor_mul host;
     imageData_error := imageData_error host |}.

(** The same host, whose feature extraction gives no [Float32Array] and
    whose audio decoder returns 100 samples for a one-byte file. *)
Definition hostNoSpectrum : Host Z :=
  {| heic2any := heic2any host;
     createImageBitmap := createImageBitmap host;
     getContext_2d := true;
     toBlob := fun cv type _ =>
       Some {| blob_bytes := [x89; x50; x4e; x47]%byte; blob_type := type |};
     canPlayType := canPlayType host;
     audioContext_error := audioContext_error host;
     decodeAudioData := fun input =>
       match input with
       | [] => Throw (new_Error "Unable to decode audio data")
       | [_] => Normal {| sampleRate := 44100%Z;
                          channelData0 := repeat 0%Z 100 |}
       | _ => Normal {| sampleRate := 44100%Z;
                        channelData0 := repeat 0%Z 2048 |}
       end;
     windowing := windowing host;
     extract := fun _ _ _ _ => None;
     floor_mul := floor_mul host;
     imageData_error := imageData_error host |}.

(** A burst of a thousand frames. *)
Definition burst : FileData :=
  {| name := "burst.heic"; bytes := repeat x00%byte 1000 |}.

Definition blip : FileData :=
  {| name := "blip.wav"; bytes := [x52]%byte |}.



(** A Meyda handler after a successful probe under [host]. *)
Definition meydaReady : meydaHandler.t := fst (meydaHandler.init host meydaHandler.new).

End Sample.

(** * Properties *)

(** ** The [Async] monad *)

Lemma bind_ret_l {A B} (a : A) (k : A -> Async B) : bind (ret a) k = k a.
Proof. unfold bind, ret. simpl. by destruct (k a). Qed.

Lemma bind_throw {A B} (e : JsThrown) (k : A -> Async B) :
  bind (throw e) k = throw e.
Proof. reflexivity. Qed.

Lemma bind_call_normal {A B} ev (a : A) (k : A -> Async B) :
  bind (call ev (Normal a)) k = (ev :: calls (k a), outcome (k a)).
Proof. reflexivity. Qed.

Lemma bind_call_throw {A B} ev e (k : A -> Async B) :
  bind (call (A:=A) ev (Throw e)) k = ([ev], Throw e).
Proof. reflexivity. Qed.

(** ** Strings *)

Lemma Contains_intro (pre s post : string) : Contains s (pre +:+ s +:+ post).
Proof. by exists pre, post. Qed.

Lemma str_app_cons (x : ascii) (a b : string) :
  String x a +:+ b = String x (a +:+ b).
Proof. reflexivity. Qed.

Lemma str_app_nil_l (b : string) : EmptyString +:+ b = b.
Proof. reflexivity. Qed.

Lemma str_app_assoc (a b c : string) : (a +:+ b) +:+ c = a +:+ (b +:+ c).
Proof.
  induction a as [|x a IH]; [done |].
  rewrite !str_app_cons. by rewrite IH.
Qed.

Lemma str_app_nil_r (a : string) : a +:+ EmptyString = a.
Proof.
  induction a as [|x a IH]; [done |].
  rewrite str_app_cons. by rewrite IH.
Qed.

Lemma str_app_length (a b : string) :
  String.length (a +:+ b) = String.length a + String.length b.
Proof.
  induction a as [|x a IH]; [done |].
  rewrite str_app_cons. simpl. by rewrite IH.
Qed.

(** ** Passthrough *)

(** The mapping of the passthrough branch rebuilds every record as it is. *)
Lemma passthrough_map_id (files : list FileData) :
  map (fun f => {| name := name f; bytes := bytes f |}) files = files.
Proof.
  induction files as [|[n b] files IH]; simpl; [done | by rewrite IH].
Qed.

(** C1, as amended.  When the input and the output descriptor both carry a
    HEIC/HEIF internal key, [doConvert] calls no codec and returns, in
    order, a copy of every input file with the same bytes and the same
    name: the name is not re-tagged with the output's extension. *)
Theorem passthrough_copies_files {float} (host : Host float)
    (this : HEICHandler.t) (files : list FileData)
    (inputFormat outputFormat : FileFormat) :
  HEICHandler.isHeic inputFormat = true ->
  HEICHandler.isHeic outputFormat = true ->
  calls (HEICHandler.doConvert host this files inputFormat outputFormat) = [] /\
  outcome (HEICHandler.doConvert host this files inputFormat outputFormat)
    = Normal files.
Proof.
  intros Hin Hout. unfold HEICHandler.doConvert.
  rewrite Hin, Hout. simpl. by rewrite passthrough_map_id.
Qed.

Lemma passthrough_copies_files_witness :
  calls (HEICHandler.doConvert Sample.host
           (HEICHandler.init (HEICHandler.new Sample.commonFormats))
           [Sample.photo1; Sample.photo3] Sample.heic Sample.heif) = [] /\
  outcome (HEICHandler.doConvert Sample.host
             (HEICHandler.init (HEICHandler.new Sample.commonFormats))
             [Sample.photo1; Sample.photo3] Sample.heic Sample.heif)
    = Normal [Sample.photo1; Sample.photo3].
Proof.
  apply (passthrough_copies_files Sample.host
           (HEICHandler.init (HEICHandler.new Sample.commonFormats))
           [Sample.photo1; Sample.photo3] Sample.heic Sample.heif);
    reflexivity.
Defined.

(** C1 as stated fails: converting [photo.heic] from HEIC to HEIF returns
    it under the name [photo.heic], which does not carry the output
    extension [heif]. *)
Lemma passthrough_keeps_input_name :
  outcome (HEICHandler.doConvert Sample.host
             (HEICHandler.init (HEICHandler.new Sample.commonFormats))
             [Sample.photo1] Sample.heic Sample.heif)
    = Normal [ {| name := "photo.heic"; bytes := [x01]%byte |} ] /\
  extension Sample.heif = "heif" /\
  JsString.includes ("." +:+ extension Sample.heif) "photo.heic" = false.
Proof. repeat split; reflexivity. Qed.

(** ** Classification *)

(** C2 fails on the code.  The HEIC handler asked to convert PNG to JPEG,
    a pair that is neither decode (the input is not HEIC/HEIF), encode (the
    output is not) nor HEIC passthrough, calls no codec and returns the
    input file unchanged instead of failing. *)
Theorem unclassified_pair_is_not_rejected :
  HEICHandler.isHeic Sample.png = false /\
  HEICHandler.isHeic Sample.jpeg = false /\
  internal Sample.png <> internal Sample.jpeg /\
  HEICHandler.doConvert Sample.host
    (HEICHandler.init (HEICHandler.new Sample.commonFormats))
    [Sample.picture] Sample.png Sample.jpeg
    = ([], Normal [ {| name := "picture.png"; bytes := [x89; x50]%byte |} ]).
Proof. repeat split; try reflexivity. vm_compute. discriminate. Qed.

(** ** The readiness gate *)

(** C3, as amended.  The Meyda handler refuses to convert while its
    readiness flag is false: [doConvert] throws "Handler not initialized!"
    before any host call, whatever the batch and the formats. *)
Theorem meyda_not_ready_fails {float} (host : Host float)
    (this : meydaHandler.t) (files : list FileData)
    (inputFormat outputFormat : FileFormat) :
  meydaHandler.ready this = false ->
  meydaHandler.doConvert host this files inputFormat outputFormat
    = ([], Throw (thrown_str "Handler not initialized!")).
Proof. intros Hready. unfold meydaHandler.doConvert. by rewrite Hready. Qed.

Lemma meyda_not_ready_fails_witness :
  meydaHandler.ready meydaHandler.new = false /\
  meydaHandler.doConvert Sample.host meydaHandler.new [Sample.song]
    meydaHandler.wav meydaHandler.png
    = ([], Throw (thrown_str "Handler not initialized!")).
Proof.
  split; [reflexivity |].
  apply (meyda_not_ready_fails Sample.host meydaHandler.new [Sample.song]
           meydaHandler.wav meydaHandler.png).
  reflexivity.
Defined.

(** C3 as stated fails: the HEIC handler converts with its readiness
    flag still false. *)
Lemma heic_converts_when_not_ready :
  HEICHandler.ready (HEICHandler.new Sample.commonFormats) = false /\
  outcome (HEICHandler.doConvert Sample.host
             (HEICHandler.new Sample.commonFormats)
             [Sample.photo1] Sample.heic Sample.png)
    = Normal [ {| name := "photo.png"; bytes := [x01]%byte |} ].
Proof. repeat split; reflexivity. Qed.

(** The HEIC handler's [doConvert] never looks at the handler object. *)
Lemma heic_doConvert_ignores_this {float} (host : Host float)
    (this this' : HEICHandler.t) files inputFormat outputFormat :
  HEICHandler.doConvert host this files inputFormat outputFormat
  = HEICHandler.doConvert host this' files inputFormat outputFormat.
Proof. reflexivity. Qed.

(** ** Sequence numbers *)

Lemma fill_zeros (k : nat) (cur : string) :
  cur = EmptyString \/ cur = "0" -> JsString.fill k cur "0" = zeros k.
Proof.
  revert cur. induction k as [|k IH]; intros cur Hcur; [done |].
  destruct Hcur as [-> | ->]; simpl; f_equal; apply IH; auto.
Qed.

Lemma zeros_length (k : nat) : String.length (zeros k) = k.
Proof. induction k as [|k IH]; simpl; [done | by rewrite IH]. Qed.

(** [padStart(3, "0")] pads with zeros up to three characters and leaves
    longer numerals alone. *)
Lemma padStart_ZeroPadded3 (n : nat) :
  ZeroPadded3 n (JsString.padStart 3 "0" (JsString.of_nat n)).
Proof.
  unfold ZeroPadded3, JsString.padStart.
  destruct (3 <=? String.length (JsString.of_nat n))%nat eqn:Hlen.
  - apply Nat.leb_le in Hlen. split; [by exists 0 | lia].
  - apply Nat.leb_gt in Hlen. rewrite fill_zeros by auto. split.
    + by eexists.
    + rewrite str_app_length, zeros_length. lia.
Qed.

Lemma to_uint_nonnil (n : nat) : Nat.to_uint n <> Nil.
Proof.
  intros Hnil.
  pose proof (Unsigned.to_of (Nat.to_uint n)) as H.
  rewrite Unsigned.of_to, Hnil in H.
  by apply (unorm_nonnil Nil).
Qed.

Lemma parseDecimal_of_nat (n : nat) : parseDecimal (JsString.of_nat n) = Some n.
Proof.
  unfold parseDecimal, JsString.of_nat.
  rewrite NilZero.usu by apply to_uint_nonnil.
  simpl. by rewrite Unsigned.of_to.
Qed.

Lemma parseDecimal_zero_cons (s : string) (n : nat) :
  parseDecimal s = Some n -> parseDecimal (String "0" s) = Some n.
Proof.
  unfold parseDecimal. destruct s as [|c s]; [simpl; done |].
  intros H. simpl NilZero.uint_of_string in *.
  destruct (uint_of_char c (NilEmpty.uint_of_string s)) as [d|];
    simpl in *; [exact H | done].
Qed.

(** A zero-padded numeral still reads as the number it pads. *)
Lemma parseDecimal_ZeroPadded3 (n : nat) (s : string) :
  ZeroPadded3 n s -> parseDecimal s = Some n.
Proof.
  intros [[k ->] _]. induction k as [|k IH]; simpl.
  - apply parseDecimal_of_nat.
  - rewrite str_app_cons. by apply parseDecimal_zero_cons.
Qed.

(** ** The decode branch *)

Lemma pushFrames_acc baseName ext (bs : list Blob) i (acc : list FileData) :
  HEICHandler.pushFrames baseName ext bs i acc
  = acc ++ HEICHandler.pushFrames baseName ext bs i [].
Proof.
  revert i acc. induction bs as [|b bs IH]; intros i acc; simpl.
  - by rewrite app_nil_r.
  - rewrite IH. rewrite (IH _ [_]). by rewrite app_assoc.
Qed.

(** The frame loop pushes one file per blob, frame [j] under index [i + j]. *)
Lemma pushFrames_imap baseName ext (bs : list Blob) i :
  HEICHandler.pushFrames baseName ext bs i []
  = imap (fun j b => {| name := HEICHandler.frameName baseName (i + j) ext;
                        bytes := blob_bytes b |}) bs.
Proof.
  revert i. induction bs as [|b bs IH]; intros i; simpl; [done |].
  rewrite pushFrames_acc, IH. simpl. f_equal.
  - by rewrite Nat.add_0_r.
  - apply imap_ext. intros j x _. simpl. by rewrite Nat.add_succ_r.
Qed.

Section DecodeBranch.
Context {float : Type} (host : Host float).
Context (inputFormat outputFormat : FileFormat).


Lemma decodeLoop_accepted f rest acc r :
  heic2any host (blobOf inputFormat f) (mime outputFormat) HEICHandler.quality
    = Normal r ->
  HEICHandler.decodeLoop host inputFormat outputFormat (f :: rest) acc
  = (heic2anyCall inputFormat outputFormat f
       :: calls (HEICHandler.decodeLoop host inputFormat outputFormat rest
                          (acc ++ decodedFiles outputFormat f r)),
     outcome (HEICHandler.decodeLoop host inputFormat outputFormat rest
                (acc ++ decodedFiles outputFormat f r))).
Proof.
  intros Hr. unfold blobOf in Hr. unfold heic2anyCall. simpl. rewrite Hr.
  unfold call, try_catch, bind, calls, outcome, decodedFiles, blobsOf. simpl.
  destruct r as [b | [| b [| b' bs]]]; simpl;
    rewrite ?app_nil_r; try reflexivity.
  rewrite (pushFrames_acc _ _ bs 2 (_ ++ _)).
  rewrite (pushFrames_acc _ _ bs 2 [_; _]).
  by rewrite <- !app_assoc.
Qed.

Lemma decodeLoop_rejected f rest acc err :
  heic2any host (blobOf inputFormat f) (mime outputFormat) HEICHandler.quality
    = Throw err ->
  HEICHandler.decodeLoop host inputFormat outputFormat (f :: rest) acc
  = ([heic2anyCall inputFormat outputFormat f],
     Throw (new_Error ("Could not decode HEIC/HEIF file " +:+ dquote
                       +:+ name f +:+ dquote +:+ ": " +:+ cause_text err))).
Proof. intros Hr. unfold blobOf in Hr. simpl. by rewrite Hr. Qed.

(** While the files are accepted the loop logs one call per file and
    collects their outputs in order. *)
Lemma decodeLoop_prefix pre rest acc :
  Forall (decodes host inputFormat outputFormat) pre ->
  HEICHandler.decodeLoop host inputFormat outputFormat (pre ++ rest) acc
  = (map (heic2anyCall inputFormat outputFormat) pre
       ++ calls (HEICHandler.decodeLoop host inputFormat outputFormat rest
                   (acc ++ flat_map (decodeOutputs host inputFormat outputFormat) pre)),
     outcome (HEICHandler.decodeLoop host inputFormat outputFormat rest
                (acc ++ flat_map (decodeOutputs host inputFormat outputFormat) pre))).
Proof.
  intros Hpre. revert acc.
  induction Hpre as [|f pre [r Hr] _ IH]; intros acc.
  - simpl. rewrite app_nil_r. by destruct (HEICHandler.decodeLoop _ _ _ _ _).
  - rewrite <- app_comm_cons, (decodeLoop_accepted _ _ _ r Hr), IH.
    unfold calls, outcome. cbn [fst snd map flat_map].
    assert (decodeOutputs host inputFormat outputFormat f
            = decodedFiles outputFormat f r) as ->
      by (unfold decodeOutputs; by rewrite Hr).
    by rewrite <- !app_assoc.
Qed.

(** A batch the decode capability accepts throughout is converted to the
    concatenation of the per-file outputs. *)
Lemma decodeHeic_accepted files :
  Forall (decodes host inputFormat outputFormat) files ->
  HEICHandler.decodeHeic host files inputFormat outputFormat
  = (map (heic2anyCall inputFormat outputFormat) files,
     Normal (flat_map (decodeOutputs host inputFormat outputFormat) files)).
Proof.
  intros Hfiles. unfold HEICHandler.decodeHeic.
  rewrite <- (app_nil_r files) at 1.
  rewrite (decodeLoop_prefix _ _ _ Hfiles). simpl. by rewrite app_nil_r.
Qed.

End DecodeBranch.

Lemma doConvert_decode {float} (host : Host float) this files inputFormat outputFormat :
  HEICHandler.isHeic inputFormat = true ->
  HEICHandler.isHeic outputFormat = false ->
  HEICHandler.doConvert host this files inputFormat outputFormat
  = HEICHandler.decodeHeic host files inputFormat outputFormat.
Proof. intros Hin Hout. unfold HEICHandler.doConvert. by rewrite Hin, Hout. Qed.

(** ** Base names *)

Lemma replace_heic_ext_eq (s : string) :
  JsString.replace_heic_ext s
  = if JsString.matches_heic_ext s then EmptyString
    else match s with
         | EmptyString => EmptyString
         | String c r => String c (JsString.replace_heic_ext r)
         end.
Proof. by destruct s. Qed.

Lemma ci_eqb_length (s t : string) :
  JsString.ci_eqb s t = true -> String.length s = String.length t.
Proof.
  revert t. induction s as [|a s IH]; intros [|b t]; simpl; try done.
  intros [_ H]%andb_prop. by rewrite (IH t).
Qed.

Lemma matches_heic_ext_length (s : string) :
  JsString.matches_heic_ext s = true -> String.length s = 5.
Proof.
  unfold JsString.matches_heic_ext.
  intros [H | H]%orb_prop; by apply ci_eqb_length in H.
Qed.

(** A trailing [.heic] or [.heif], in any case, is cut off and nothing
    else: what stands before it, dots included, is kept. *)
Lemma replace_heic_ext_suffix (b e : string) :
  JsString.matches_heic_ext e = true ->
  JsString.replace_heic_ext (b +:+ e) = b.
Proof.
  intros He. induction b as [|c b IH].
  - rewrite str_app_nil_l, replace_heic_ext_eq. by rewrite He.
  - rewrite str_app_cons, replace_heic_ext_eq.
    destruct (JsString.matches_heic_ext (String c (b +:+ e))) eqn:Hm.
    + apply matches_heic_ext_length in Hm, He.
      simpl in Hm. rewrite str_app_length in Hm. lia.
    + by rewrite IH.
Qed.

(** A name that does not end in [.heic] or [.heif] is its own base name. *)
Lemma replace_heic_ext_other (s : string) :
  (forall b e, s = b +:+ e -> JsString.matches_heic_ext e = false) ->
  JsString.replace_heic_ext s = s.
Proof.
  induction s as [|c s IH]; intros Hs; [done |].
  rewrite replace_heic_ext_eq, (Hs EmptyString (String c s) eq_refl).
  f_equal. apply IH. intros b e ->. by apply (Hs (String c b) e).
Qed.

Lemma split_dot_nonempty (s : string) : JsString.split_dot s <> [].
Proof.
  destruct s as [|c s]; simpl; [done |].
  destruct (JsString.is_dot c); [done |].
  by destruct (JsString.split_dot s).
Qed.

Lemma index0_split_dot_cons (c : ascii) (s : string) :
  JsString.index0 (JsString.split_dot (String c s))
  = if JsString.is_dot c then EmptyString
    else String c (JsString.index0 (JsString.split_dot s)).
Proof.
  simpl. destruct (JsString.is_dot c); [done |].
  pose proof (split_dot_nonempty s). by destruct (JsString.split_dot s).
Qed.

(** [name.split(".")[0]] is what stands before the first dot of the name. *)
Lemma index0_split_dot_first (b r : string) :
  JsString.no_dot b = true ->
  JsString.index0 (JsString.split_dot (b +:+ "." +:+ r)) = b.
Proof.
  induction b as [|c b IH]; intros Hb; [done |].
  simpl in Hb. apply andb_prop in Hb as [Hc Hb].
  rewrite str_app_cons, index0_split_dot_cons.
  destruct (JsString.is_dot c); [done |]. by rewrite IH.
Qed.

(** The decode branch names the only result of an input
    [<base>.<extension of the output format>]. *)
Lemma decode_single_output {float} (host : Host float)
    inputFormat outputFormat f r b :
  heic2any host (blobOf inputFormat f) (mime outputFormat) HEICHandler.quality
    = Normal r ->
  blobsOf r = [b] ->
  decodeOutputs host inputFormat outputFormat f
  = [ {| name := JsString.replace_heic_ext (name f) +:+ "."
                 +:+ extension outputFormat;
         bytes := blob_bytes b |} ].
Proof.
  intros Hr Hb. unfold decodeOutputs, decodedFiles. by rewrite Hr, Hb.
Qed.

(** The single-result example of the contract: [photo.heic] with one
    frame, converted to JPEG. *)
Example single_photo_name :
  outcome (HEICHandler.doConvert Sample.host
             (HEICHandler.init (HEICHandler.new Sample.commonFormats))
             [Sample.photo1] Sample.heic Sample.jpeg)
  = Normal [ {| name := "photo.jpeg"; bytes := [x01]%byte |} ].
Proof. reflexivity. Qed.

(** C5 fails on the code.  The Meyda handler, ready and given
    [my.song.wav] to render as PNG, names its single output [my.png]: the
    name is cut at its first dot, so [.song] is lost with the extension.
    The HEIC handler keeps the interior dot of [my.photo.heic]. *)
Theorem meyda_output_name_cut_at_first_dot :
  meydaHandler.ready Sample.meydaReady = true /\
  outcome (meydaHandler.doConvert Sample.host Sample.meydaReady
             [Sample.song] meydaHandler.wav meydaHandler.png)
  = Normal [ {| name := "my.png"; bytes := [x89; x50; x4e; x47]%byte |} ] /\
  outcome (HEICHandler.doConvert Sample.host
             (HEICHandler.init (HEICHandler.new Sample.commonFormats))
             [ {| name := "my.photo.heic"; bytes := [x01]%byte |} ]
             Sample.heic Sample.png)
  = Normal [ {| name := "my.photo.png"; bytes := [x01]%byte |} ].
Proof. repeat split; vm_compute; reflexivity. Qed.

(** ** Fan-out naming *)

Lemma lower_is_dot (c : ascii) :
  Ascii.eqb (JsString.lower c) "." = Ascii.eqb c ".".
Proof. destruct c as [[] [] [] [] [] [] [] []]; reflexivity. Qed.

Lemma lower_is_h (c : ascii) :
  Ascii.eqb (JsString.lower c) "h" = Ascii.eqb c "h" || Ascii.eqb c "H".
Proof. destruct c as [[] [] [] [] [] [] [] []]; reflexivity. Qed.

Lemma lower_is_e (c : ascii) :
  Ascii.eqb (JsString.lower c) "e" = Ascii.eqb c "e" || Ascii.eqb c "E".
Proof. destruct c as [[] [] [] [] [] [] [] []]; reflexivity. Qed.

Lemma lower_is_i (c : ascii) :
  Ascii.eqb (JsString.lower c) "i" = Ascii.eqb c "i" || Ascii.eqb c "I".
Proof. destruct c as [[] [] [] [] [] [] [] []]; reflexivity. Qed.

Lemma lower_is_c (c : ascii) :
  Ascii.eqb (JsString.lower c) "c" = Ascii.eqb c "c" || Ascii.eqb c "C".
Proof. destruct c as [[] [] [] [] [] [] [] []]; reflexivity. Qed.

Lemma lower_is_f (c : ascii) :
  Ascii.eqb (JsString.lower c) "f" = Ascii.eqb c "f" || Ascii.eqb c "F".
Proof. destruct c as [[] [] [] [] [] [] [] []]; reflexivity. Qed.

Lemma IsHeicExtension_length (e : string) :
  IsHeicExtension e -> String.length e = 5.
Proof. by intros (c1 & c2 & c3 & c4 & -> & _). Qed.

(** The pattern of the decode branch matches exactly the spellings of
    [.heic] and [.heif] in upper and lower case letters. *)
Lemma matches_heic_ext_letters (e : string) :
  JsString.matches_heic_ext e = true <-> IsHeicExtension e.
Proof.
  split.
  - intros H. pose proof (matches_heic_ext_length _ H) as Hlen.
    destruct e as [|a0 [|a1 [|a2 [|a3 [|a4 [|a5 e]]]]]]; try done.
    unfold JsString.matches_heic_ext in H. cbn [JsString.ci_eqb] in H.
    change (JsString.lower ".") with "."%char in H.
    change (JsString.lower "h") with "h"%char in H.
    change (JsString.lower "e") with "e"%char in H.
    change (JsString.lower "i") with "i"%char in H.
    change (JsString.lower "c") with "c"%char in H.
    change (JsString.lower "f") with "f"%char in H.
    rewrite lower_is_dot, lower_is_h, lower_is_e, lower_is_i,
      lower_is_c, lower_is_f in H.
    rewrite !andb_true_r in H.
    rewrite ?orb_true_iff, ?andb_true_iff, ?orb_true_iff, ?Ascii.eqb_eq in H.
    exists a1, a2, a3, a4.
    destruct H as [(-> & ? & ? & ? & ?) | (-> & ? & ? & ? & ?)];
      repeat split; tauto.
  - intros (c1 & c2 & c3 & c4 & -> & H1 & H2 & H3 & H4).
    destruct H1 as [-> | ->], H2 as [-> | ->], H3 as [-> | ->],
             H4 as [-> | [-> | [-> | ->]]]; reflexivity.
Qed.

(** What the decode branch takes as base name is the name without its
    HEIC/HEIF extension. *)
Lemma replace_heic_ext_base (s : string) :
  HeicBaseName s (JsString.replace_heic_ext s).
Proof.
  unfold HeicBaseName. induction s as [|c s IH].
  - right. split; [done |].
    intros [|??] [|??] H He; try done. by apply IsHeicExtension_length in He.
  - rewrite replace_heic_ext_eq.
    destruct (JsString.matches_heic_ext (String c s)) eqn:Hm.
    + left. exists (String c s). by split; [apply matches_heic_ext_letters |].
    + destruct IH as [(e & He & Hs) | [Hs Hnone]].
      * left. exists e. split; [done |]. rewrite str_app_cons. by f_equal.
      * right. rewrite Hs. split; [done |].
        intros [|x b] e H He.
        -- rewrite str_app_nil_l in H. subst e.
           apply matches_heic_ext_letters in He. congruence.
        -- rewrite str_app_cons in H. injection H as -> H. by eapply Hnone.
Qed.

Lemma str_app_inj_length (a b c d : string) :
  a +:+ c = b +:+ d -> String.length c = String.length d -> a = b /\ c = d.
Proof.
  revert b. induction a as [|x a IH]; intros [|y b] H Hlen.
  - by rewrite !str_app_nil_l in H.
  - apply (f_equal String.length) in H.
    rewrite str_app_nil_l, str_app_length in H. simpl in H. lia.
  - apply (f_equal String.length) in H.
    rewrite str_app_nil_l, str_app_length in H. simpl in H. lia.
  - rewrite !str_app_cons in H. injection H as -> H.
    destruct (IH b H Hlen) as [-> ->]. done.
Qed.

(** A name has one base name only. *)
Lemma HeicBaseName_unique (s b1 b2 : string) :
  HeicBaseName s b1 -> HeicBaseName s b2 -> b1 = b2.
Proof.
  intros [(e1 & He1 & H1) | [-> Hnone1]] [(e2 & He2 & H2) | [-> Hnone2]].
  - rewrite H1 in H2.
    apply str_app_inj_length in H2 as [? _]; [done |].
    by rewrite (IsHeicExtension_length _ He1), (IsHeicExtension_length _ He2).
  - by destruct (Hnone2 _ _ H1).
  - by destruct (Hnone1 _ _ H2).
  - done.
Qed.

(** Numbers below a thousand have at most three digits. *)
Lemma of_nat_length_below_1000 (n : nat) :
  n < 1000 -> String.length (JsString.of_nat n) <= 3.
Proof.
  intros Hn.
  assert (forallb (fun k => String.length (JsString.of_nat k) <=? 3)%nat
                  (seq 0 1000) = true) as Hall by (vm_compute; reflexivity).
  rewrite forallb_forall in Hall.
  apply Nat.leb_le, Hall, in_seq. lia.
Qed.

(** C4, as amended.  In the decode branch, an input file whose decode
    yields an array of [N > 1] blobs contributes [N] output files, placed
    after the outputs of the files before it and in the order of the
    frames: frame [i] (from 0) carries the bytes of blob [i] and is named
    [<base>_<NNN>.<extension of the output format>], where [<base>] is the
    input name without its HEIC/HEIF extension and [NNN] is the decimal
    numeral of [i + 1] padded with zeros on the left to at least three
    characters: exactly three for the first 999 frames, all its digits
    from frame 1000 on. *)
Theorem fanout_frame_names {float} (host : Host float) (this : HEICHandler.t)
    (pre post : list FileData) (f : FileData)
    (inputFormat outputFormat : FileFormat) (bs : list Blob) :
  HEICHandler.isHeic inputFormat = true ->
  HEICHandler.isHeic outputFormat = false ->
  Forall (decodes host inputFormat outputFormat) (pre ++ post) ->
  heic2any host (blobOf inputFormat f) (mime outputFormat) HEICHandler.quality
    = Normal (BlobArray bs) ->
  1 < length bs ->
  exists base frames,
    HeicBaseName (name f) base /\
    outcome (HEICHandler.doConvert host this (pre ++ f :: post)
               inputFormat outputFormat)
      = Normal (flat_map (decodeOutputs host inputFormat outputFormat) pre
                ++ frames
                ++ flat_map (decodeOutputs host inputFormat outputFormat) post) /\
    length frames = length bs /\
    forall i b, bs !! i = Some b ->
      exists nnn,
        ZeroPadded3 (i + 1) nnn /\
        parseDecimal nnn = Some (i + 1) /\
        (i + 1 < 1000 -> String.length nnn = 3) /\
        frames !! i
          = Some {| name := base +:+ "_" +:+ nnn
                            +:+ "." +:+ extension outputFormat;
                    bytes := blob_bytes b |}.
Proof.
  intros Hin Hout Hothers Hf Hlen.
  apply Forall_app in Hothers as [Hpre Hpost].
  assert (Forall (decodes host inputFormat outputFormat) (pre ++ f :: post)) as Hall.
  { apply Forall_app. split; [done |]. constructor; [by eexists | done]. }
  rewrite (doConvert_decode host this _ _ _ Hin Hout).
  rewrite (decodeHeic_accepted host _ _ _ Hall).
  assert (decodeOutputs host inputFormat outputFormat f
          = imap (fun j b =>
                    {| name := HEICHandler.frameName
                                 (JsString.replace_heic_ext (name f)) j
                                 (extension outputFormat);
                       bytes := blob_bytes b |}) bs) as Hframes.
  { unfold decodeOutputs. rewrite Hf. unfold decodedFiles, blobsOf.
    destruct bs as [| b [| b' bs]]; simpl in Hlen; try lia.
    by rewrite pushFrames_imap. }
  exists (JsString.replace_heic_ext (name f)). eexists.
  split; [apply replace_heic_ext_base |]. split; [| split].
  - unfold outcome. simpl. rewrite flat_map_app. simpl. by rewrite Hframes.
  - by rewrite length_imap.
  - intros i b Hb.
    exists (JsString.padStart 3 "0" (JsString.of_nat (i + 1))).
    pose proof (padStart_ZeroPadded3 (i + 1)) as Hpad.
    split; [done |]. split; [by apply parseDecimal_ZeroPadded3 |]. split.
    + intros Hi. destruct Hpad as [_ Hwidth].
      pose proof (of_nat_length_below_1000 _ Hi). lia.
    + rewrite list_lookup_imap, Hb. reflexivity.
Qed.

Lemma fanout_frame_names_witness :
  exists base frames,
    HeicBaseName (name Sample.photo3) base /\
    outcome (HEICHandler.doConvert Sample.host
               (HEICHandler.init (HEICHandler.new Sample.commonFormats))
               ([Sample.photo1] ++ Sample.photo3 :: [Sample.photo1])
               Sample.heic Sample.png)
      = Normal (flat_map (decodeOutputs Sample.host Sample.heic Sample.png)
                         [Sample.photo1]
                ++ frames
                ++ flat_map (decodeOutputs Sample.host Sample.heic Sample.png)
                            [Sample.photo1]) /\
    length frames = 3 /\
    forall i b,
      [ {| blob_bytes := [x01]%byte; blob_type := "image/png" |};
        {| blob_bytes := [x02]%byte; blob_type := "image/png" |};
        {| blob_bytes := [x03]%byte; blob_type := "image/png" |} ] !! i = Some b ->
      exists nnn,
        ZeroPadded3 (i + 1) nnn /\
        parseDecimal nnn = Some (i + 1) /\
        (i + 1 < 1000 -> String.length nnn = 3) /\
        frames !! i
          = Some {| name := base +:+ "_" +:+ nnn +:+ "." +:+ extension Sample.png;
                    bytes := blob_bytes b |}.
Proof.
  apply (fanout_frame_names Sample.host
           (HEICHandler.init (HEICHandler.new Sample.commonFormats))
           [Sample.photo1] [Sample.photo1] Sample.photo3
           Sample.heic Sample.png
           [ {| blob_bytes := [x01]%byte; blob_type := "image/png" |};
             {| blob_bytes := [x02]%byte; blob_type := "image/png" |};
             {| blob_bytes := [x03]%byte; blob_type := "image/png" |} ]).
  - reflexivity.
  - reflexivity.
  - repeat constructor; eexists; reflexivity.
  - reflexivity.
  - simpl. lia.
Defined.

(** C4 as stated fails: the sequence number is not always three
    characters wide.  The thousandth frame of [burst.heic] is named
    [burst_1000.png], with a number of four characters. *)
Lemma frame_1000_number_is_four_wide :
  length (bytes Sample.burst) = 1000 /\
  option_map name
    match outcome (HEICHandler.doConvert Sample.host
                     (HEICHandler.init (HEICHandler.new Sample.commonFormats))
                     [Sample.burst] Sample.heic Sample.png) with
    | Normal outs => outs !! 999
    | Throw _ => None
    end
  = Some ("burst" +:+ "_" +:+ "1000" +:+ "." +:+ "png") /\
  String.length "1000" = 4.
Proof. repeat split; vm_compute; reflexivity. Qed.

(** The fan-out example of the contract: [photo.heic] with three frames,
    converted to PNG. *)
Example fanout_photo_three_frames :
  outcome (HEICHandler.doConvert Sample.host
             (HEICHandler.init (HEICHandler.new Sample.commonFormats))
             [Sample.photo3] Sample.heic Sample.png)
  = Normal [ {| name := "photo_001.png"; bytes := [x01]%byte |};
             {| name := "photo_002.png"; bytes := [x02]%byte |};
             {| name := "photo_003.png"; bytes := [x03]%byte |} ].
Proof. reflexivity. Qed.

(** Below a thousand the sequence number has exactly three characters. *)
Lemma ZeroPadded3_width (n : nat) (s : string) :
  ZeroPadded3 n s -> String.length (JsString.of_nat n) <= 3 -> String.length s = 3.
Proof. intros [_ Hlen] Hn. lia. Qed.

Example frame_1000_name :
  HEICHandler.frameName "photo" 999 "png" = "photo_1000.png".
Proof. reflexivity. Qed.

Example base_name_of_photo : HeicBaseName "photo.HEIC" "photo".
Proof.
  left. exists ".HEIC". split; [| reflexivity].
  exists "H"%char, "E"%char, "I"%char, "C"%char. repeat split; tauto.
Qed.

(** ** Decode failures *)

(** C6, as amended.  In the decode branch of the HEIC handler, when the
    decode capability accepts the files before [f] and rejects [f] with
    [err], [doConvert] fails with an [Error] whose message contains the
    name of [f] and the cause ([err.message] when there is one, the thrown
    value as a string otherwise).  The capability has then been called
    once for each file up to and including [f], in order, and not again:
    [f] is not retried and the files after it are not submitted. *)
Theorem decode_failure_names_file {float} (host : Host float)
    (this : HEICHandler.t) (pre post : list FileData) (f : FileData)
    (inputFormat outputFormat : FileFormat) (err : JsThrown) :
  HEICHandler.isHeic inputFormat = true ->
  HEICHandler.isHeic outputFormat = false ->
  Forall (decodes host inputFormat outputFormat) pre ->
  heic2any host (blobOf inputFormat f) (mime outputFormat) HEICHandler.quality
    = Throw err ->
  exists msg,
    outcome (HEICHandler.doConvert host this (pre ++ f :: post)
               inputFormat outputFormat) = Throw (new_Error msg) /\
    Contains (name f) msg /\
    Contains (cause_text err) msg /\
    calls (HEICHandler.doConvert host this (pre ++ f :: post)
             inputFormat outputFormat)
      = map (heic2anyCall inputFormat outputFormat) (pre ++ [f]).
Proof.
  intros Hin Hout Hpre Hf.
  rewrite (doConvert_decode host this _ _ _ Hin Hout).
  unfold HEICHandler.decodeHeic.
  rewrite (decodeLoop_prefix host _ _ _ _ _ Hpre).
  rewrite (decodeLoop_rejected host _ _ _ _ _ err Hf).
  eexists. split; [reflexivity |]. split; [| split].
  - exists ("Could not decode HEIC/HEIF file " +:+ dquote),
           (dquote +:+ ": " +:+ cause_text err).
    by rewrite str_app_assoc.
  - exists ("Could not decode HEIC/HEIF file " +:+ dquote +:+ name f
            +:+ dquote +:+ ": "), EmptyString.
    by rewrite str_app_nil_r, !str_app_assoc.
  - unfold calls. simpl. by rewrite map_app.
Qed.

Lemma decode_failure_names_file_witness :
  exists msg,
    outcome (HEICHandler.doConvert Sample.host
               (HEICHandler.init (HEICHandler.new Sample.commonFormats))
               ([Sample.photo1] ++ Sample.broken :: [Sample.photo3])
               Sample.heic Sample.png) = Throw (new_Error msg) /\
    Contains (name Sample.broken) msg /\
    Contains (cause_text (new_Error "ERR_LIBHEIF format not supported")) msg /\
    calls (HEICHandler.doConvert Sample.host
             (HEICHandler.init (HEICHandler.new Sample.commonFormats))
             ([Sample.photo1] ++ Sample.broken :: [Sample.photo3])
             Sample.heic Sample.png)
      = map (heic2anyCall Sample.heic Sample.png)
            ([Sample.photo1] ++ [Sample.broken]).
Proof.
  apply (decode_failure_names_file Sample.host
           (HEICHandler.init (HEICHandler.new Sample.commonFormats))
           [Sample.photo1] [Sample.photo3] Sample.broken
           Sample.heic Sample.png
           (new_Error "ERR_LIBHEIF format not supported")).
  - reflexivity.
  - reflexivity.
  - repeat constructor; eexists; reflexivity.
  - reflexivity.
Defined.

Example decode_failure_message :
  outcome (HEICHandler.doConvert Sample.host
             (HEICHandler.init (HEICHandler.new Sample.commonFormats))
             [Sample.photo1; Sample.broken; Sample.photo3]
             Sample.heic Sample.png)
  = Throw (new_Error
      ("Could not decode HEIC/HEIF file " +:+ dquote +:+ "broken.heic" +:+ dquote
       +:+ ": ERR_LIBHEIF format not supported")).
Proof. reflexivity. Qed.

(** C6 as stated fails: when the audio decoder rejects [silence.wav], the
    Meyda handler lets the decoder's own error through, and neither its
    message nor its string form contains the name of the file. *)
Lemma meyda_decode_failure_lacks_file_name :
  meydaHandler.doConvert Sample.host Sample.meydaReady
    [Sample.silence] meydaHandler.wav meydaHandler.png
  = ([CallDecodeAudioData []],
     Throw (new_Error "Unable to decode audio data")) /\
  JsString.includes (name Sample.silence)
    (cause_text (new_Error "Unable to decode audio data")) = false /\
  JsString.includes (name Sample.silence)
    (thrown_string (new_Error "Unable to decode audio data")) = false.
Proof. repeat split; vm_compute; reflexivity. Qed.

(** ** The encode branch *)

Section EncodeBranch.
Context {float : Type} (host : Host float).
Context (inputFormat outputFormat : FileFormat).
Hypothesis context_2d : getContext_2d host = true.

Lemma encodeLoop_encoded f rest acc :
  encodes host inputFormat outputFormat f ->
  outcome (HEICHandler.encodeLoop host inputFormat outputFormat (f :: rest) acc)
  = outcome (HEICHandler.encodeLoop host inputFormat outputFormat rest
               (acc ++ encodeOutputs host inputFormat outputFormat f)).
Proof.
  intros (bitmap & blob & Hbitmap & Hblob).
  unfold encodeOutputs. rewrite Hbitmap, Hblob.
  unfold blobOf, canvasOf in *. simpl.
  rewrite Hbitmap. simpl. rewrite context_2d, Hblob. reflexivity.
Qed.

Lemma encodeLoop_prefix pre rest acc :
  Forall (encodes host inputFormat outputFormat) pre ->
  outcome (HEICHandler.encodeLoop host inputFormat outputFormat (pre ++ rest) acc)
  = outcome (HEICHandler.encodeLoop host inputFormat outputFormat rest
               (acc ++ flat_map (encodeOutputs host inputFormat outputFormat) pre)).
Proof.
  intros Hpre. revert acc.
  induction Hpre as [|f pre Hf _ IH]; intros acc.
  - simpl. by rewrite app_nil_r.
  - rewrite <- app_comm_cons, (encodeLoop_encoded _ _ _ Hf), IH.
    simpl. by rewrite <- app_assoc.
Qed.

(** The host gives a bitmap for [f] but no output bytes. *)
Lemma encodeLoop_declined f rest acc bitmap :
  createImageBitmap host (blobOf inputFormat f) = Normal bitmap ->
  toBlob host (canvasOf bitmap) (mime outputFormat) (Some HEICHandler.quality)
    = None ->
  outcome (HEICHandler.encodeLoop host inputFormat outputFormat (f :: rest) acc)
  = Throw (new_Error HEICHandler.encodeUnsupported).
Proof.
  intros Hbitmap Hblob. unfold blobOf, canvasOf in *. simpl.
  rewrite Hbitmap. simpl. rewrite context_2d, Hblob. reflexivity.
Qed.

(** A batch the host encodes throughout. *)
Lemma encodeHeic_encoded files :
  Forall (encodes host inputFormat outputFormat) files ->
  outcome (HEICHandler.encodeHeic host files inputFormat outputFormat)
  = Normal (flat_map (encodeOutputs host inputFormat outputFormat) files).
Proof.
  intros Hfiles. unfold HEICHandler.encodeHeic.
  rewrite <- (app_nil_r files) at 1.
  by rewrite (encodeLoop_prefix _ _ _ Hfiles).
Qed.

End EncodeBranch.

Lemma doConvert_encode {float} (host : Host float) this files inputFormat outputFormat :
  HEICHandler.isHeic inputFormat = false ->
  HEICHandler.isHeic outputFormat = true ->
  HEICHandler.doConvert host this files inputFormat outputFormat
  = HEICHandler.encodeHeic host files inputFormat outputFormat.
Proof. intros Hin Hout. unfold HEICHandler.doConvert. by rewrite Hin, Hout. Qed.

(** C7, as amended.  In the encode branch of the HEIC handler, when the
    canvas gives output bytes for the files before [f] and none ([null])
    for [f], [doConvert] returns no batch: it fails with an [Error] whose
    message says that HEIC/HEIF encoding is not supported in this browser
    and suggests PNG or JPEG instead. *)
Theorem encode_unavailable_names_fallback {float} (host : Host float)
    (this : HEICHandler.t) (pre post : list FileData) (f : FileData)
    (inputFormat outputFormat : FileFormat) (bitmap : ImageBitmap) :
  HEICHandler.isHeic inputFormat = false ->
  HEICHandler.isHeic outputFormat = true ->
  getContext_2d host = true ->
  Forall (encodes host inputFormat outputFormat) pre ->
  createImageBitmap host (blobOf inputFormat f) = Normal bitmap ->
  toBlob host (canvasOf bitmap) (mime outputFormat) (Some HEICHandler.quality)
    = None ->
  exists msg,
    outcome (HEICHandler.doConvert host this (pre ++ f :: post)
               inputFormat outputFormat) = Throw (new_Error msg) /\
    Contains "HEIC/HEIF encoding is not supported in this browser" msg /\
    Contains "PNG" msg /\
    Contains "JPEG" msg.
Proof.
  intros Hin Hout Hctx Hpre Hbitmap Hblob.
  rewrite (doConvert_encode host this _ _ _ Hin Hout).
  unfold HEICHandler.encodeHeic.
  rewrite (encodeLoop_prefix host _ _ Hctx _ _ _ Hpre).
  rewrite (encodeLoop_declined host _ _ Hctx _ _ _ bitmap Hbitmap Hblob).
  exists HEICHandler.encodeUnsupported. split; [reflexivity |].
  split; [| split].
  - by exists EmptyString,
      (". Native encoding requires Safari on macOS (High Sierra or later) or iOS (11 or later). Consider converting to PNG or JPEG instead.").
  - by exists
      ("HEIC/HEIF encoding is not supported in this browser. Native encoding requires Safari on macOS (High Sierra or later) or iOS (11 or later). Consider converting to "),
      (" or JPEG instead.").
  - by exists
      ("HEIC/HEIF encoding is not supported in this browser. Native encoding requires Safari on macOS (High Sierra or later) or iOS (11 or later). Consider converting to PNG or "),
      (" instead.").
Qed.

Lemma encode_unavailable_names_fallback_witness :
  exists msg,
    outcome (HEICHandler.doConvert Sample.host
               (HEICHandler.init (HEICHandler.new Sample.commonFormats))
               ([] ++ Sample.picture :: [Sample.picture])
               Sample.png Sample.heic) = Throw (new_Error msg) /\
    Contains "HEIC/HEIF encoding is not supported in this browser" msg /\
    Contains "PNG" msg /\
    Contains "JPEG" msg.
Proof.
  apply (encode_unavailable_names_fallback Sample.host
           (HEICHandler.init (HEICHandler.new Sample.commonFormats))
           [] [Sample.picture] Sample.picture Sample.png Sample.heic
           {| bitmap_width := 1; bitmap_height := 1;
              bitmap_pixels := [x89; x50]%byte |}).
  - reflexivity.
  - reflexivity.
  - reflexivity.
  - constructor.
  - reflexivity.
  - reflexivity.
Defined.

Example encode_unavailable_message :
  namesAFormat HEICHandler.encodeUnsupported = true.
Proof. vm_compute. reflexivity. Qed.

(** C7 as stated fails: when the canvas gives no blob, the Meyda handler
    fails with "Canvas output failed.", which names no format. *)
Lemma meyda_canvas_failure_names_no_format :
  outcome (meydaHandler.doConvert Sample.hostNoBlob Sample.meydaReady
             [Sample.song] meydaHandler.wav meydaHandler.png)
  = Throw (thrown_str "Canvas output failed.") /\
  namesAFormat (cause_text (thrown_str "Canvas output failed.")) = false.
Proof. split; vm_compute; reflexivity. Qed.

(** ** Probing *)

(** A probe of the Meyda handler appends the playable audio descriptors to
    whatever the capability set holds, whether or not the probe succeeds. *)
Lemma meyda_init_formats {float} (host : Host float) (this : meydaHandler.t) :
  meydaHandler.supportedFormats (fst (meydaHandler.init host this))
  = meydaHandler.supportedFormats this ++ playableAudio host.
Proof.
  unfold meydaHandler.init, playableAudio, meydaHandler.pushIfPlayable.
  destruct (audioContext_error host), (getContext_2d host); simpl;
    rewrite !filter_cons, filter_nil; simpl;
    destruct (meydaHandler.truthy (canPlayType host "audio/wav"));
    destruct (meydaHandler.truthy (canPlayType host "audio/mpeg"));
    destruct (meydaHandler.truthy (canPlayType host "audio/ogg"));
    destruct (meydaHandler.truthy (canPlayType host "audio/flac"));
    simpl; rewrite <- ?app_assoc, ?app_nil_r; reflexivity.
Qed.

(** C8, as amended.  A second probe leaves the capability set of the HEIC
    handler and of the ANI handler as the first probe left it.  The Meyda
    handler has no guard against a second probe: it appends once more
    every audio descriptor whose playability probe succeeds, so its set is
    unchanged only when none of the four audio formats is playable. *)
Theorem second_probe_capabilities :
  (forall this : HEICHandler.t,
     HEICHandler.supportedFormats (HEICHandler.init (HEICHandler.init this))
     = HEICHandler.supportedFormats (HEICHandler.init this)) /\
  (forall (cf : CommonFormats) (this : aniHandler.t),
     aniHandler.supportedFormats (aniHandler.init cf (aniHandler.init cf this))
     = aniHandler.supportedFormats (aniHandler.init cf this)) /\
  (forall (float : Type) (host : Host float) (this : meydaHandler.t),
     meydaHandler.supportedFormats
       (fst (meydaHandler.init host (fst (meydaHandler.init host this))))
     = meydaHandler.supportedFormats (fst (meydaHandler.init host this))
       ++ playableAudio host).
Proof.
  split; [| split].
  - reflexivity.
  - reflexivity.
  - intros float host this. apply meyda_init_formats.
Qed.

(** The Meyda handler's set is unchanged by a second probe exactly when no
    audio format is playable. *)
Lemma meyda_second_probe_unchanged_iff {float} (host : Host float)
    (this : meydaHandler.t) :
  meydaHandler.supportedFormats
    (fst (meydaHandler.init host (fst (meydaHandler.init host this))))
  = meydaHandler.supportedFormats (fst (meydaHandler.init host this))
  <-> playableAudio host = [].
Proof.
  rewrite (meyda_init_formats host (fst (meydaHandler.init host this))).
  split.
  - intros H. apply (f_equal length) in H. rewrite length_app in H.
    destruct (playableAudio host); [done | simpl in H; lia].
  - intros ->. by rewrite app_nil_r.
Qed.

(** C8 as stated fails: under a host that can play WAV, both probes of the
    Meyda handler succeed and the second one adds the WAV descriptor
    again. *)
Lemma meyda_second_probe_duplicates :
  snd (meydaHandler.init Sample.host meydaHandler.new) = Normal tt /\
  snd (meydaHandler.init Sample.host
         (fst (meydaHandler.init Sample.host meydaHandler.new))) = Normal tt /\
  meydaHandler.supportedFormats
    (fst (meydaHandler.init Sample.host meydaHandler.new))
  = [meydaHandler.png; meydaHandler.jpeg; meydaHandler.webp; meydaHandler.wav] /\
  meydaHandler.supportedFormats
    (fst (meydaHandler.init Sample.host
            (fst (meydaHandler.init Sample.host meydaHandler.new))))
  = [meydaHandler.png; meydaHandler.jpeg; meydaHandler.webp; meydaHandler.wav;
     meydaHandler.wav].
Proof. repeat split; reflexivity. Qed.

(** ** One-way capabilities *)

(** The capability set of the Meyda handler holds the three image
    descriptors and playable audio descriptors, and nothing else. *)
Lemma meyda_formats_invariant {float} (host : Host float) (n : nat) (d : FileFormat) :
  d ∈ meydaHandler.supportedFormats (probes host n meydaHandler.new) ->
  d ∈ [meydaHandler.png; meydaHandler.jpeg; meydaHandler.webp] \/
  (d ∈ [meydaHandler.wav; meydaHandler.mp3; meydaHandler.ogg; meydaHandler.flac] /\
   meydaHandler.truthy (canPlayType host (mime d)) = true).
Proof.
  induction n as [|n IH]; simpl.
  - auto.
  - rewrite meyda_init_formats, elem_of_app.
    intros [Hd | Hd]; [by apply IH |].
    right. unfold playableAudio in Hd.
    by apply list_elem_of_filter in Hd as [? ?].
Qed.

(** C9.  After any number of probes of the Meyda handler, every image
    descriptor of its capability set has [to = true] and [from = false],
    every audio descriptor has [from = true] and [to = false] and is there
    only if the host's playability probe for its container type succeeded;
    no descriptor that can be converted from is an image and none that can
    be converted to is audio, so the set never allows image to audio. *)
Theorem meyda_capabilities_one_way {float} (host : Host float) (n : nat)
    (d : FileFormat) :
  d ∈ meydaHandler.supportedFormats (probes host n meydaHandler.new) ->
  (isImage d = true -> to d = true /\ from d = false) /\
  (isAudio d = true ->
     from d = true /\ to d = false /\
     meydaHandler.truthy (canPlayType host (mime d)) = true) /\
  (from d = true -> isImage d = false) /\
  (to d = true -> isAudio d = false).
Proof.
  intros Hd. apply meyda_formats_invariant in Hd as [Hd | [Hd Hplay]].
  - rewrite !elem_of_cons, elem_of_nil in Hd.
    destruct Hd as [-> | [-> | [-> | []]]]; repeat split; done.
  - rewrite !elem_of_cons, elem_of_nil in Hd.
    destruct Hd as [-> | [-> | [-> | [-> | []]]]]; repeat split; done.
Qed.

Lemma meyda_capabilities_one_way_witness :
  (isImage meydaHandler.wav = true ->
     to meydaHandler.wav = true /\ from meydaHandler.wav = false) /\
  (isAudio meydaHandler.wav = true ->
     from meydaHandler.wav = true /\ to meydaHandler.wav = false /\
     meydaHandler.truthy (canPlayType Sample.host (mime meydaHandler.wav)) = true) /\
  (from meydaHandler.wav = true -> isImage meydaHandler.wav = false) /\
  (to meydaHandler.wav = true -> isAudio meydaHandler.wav = false).
Proof.
  apply (meyda_capabilities_one_way Sample.host 1 meydaHandler.wav).
  apply list_elem_of_In. vm_compute. right; right; right; left; reflexivity.
Defined.

(** No pair of descriptors of the set lets an image in and audio out. *)
Corollary meyda_no_image_to_audio {float} (host : Host float) (n : nat)
    (input output : FileFormat) :
  input ∈ meydaHandler.supportedFormats (probes host n meydaHandler.new) ->
  output ∈ meydaHandler.supportedFormats (probes host n meydaHandler.new) ->
  ~ (isImage input = true /\ from input = true /\
     isAudio output = true /\ to output = true).
Proof.
  intros Hin%(meyda_formats_invariant host) _ (Himg & Hfrom & _ & _).
  destruct Hin as [Hin | [Hin _]];
    rewrite !elem_of_cons, elem_of_nil in Hin;
    repeat (destruct Hin as [-> | Hin]); done.
Qed.

(** ** The Meyda handler's conversion *)

Section MeydaConvert.
Context {float : Type} (host : Host float).
Context (this : meydaHandler.t) (inputFormat outputFormat : FileFormat).
Hypothesis initialized : meydaInitialized this.

Lemma meyda_doConvert_initialized files :
  meydaHandler.doConvert host this files inputFormat outputFormat
  = meydaHandler.convertLoop host outputFormat files [].
Proof.
  destruct initialized as (Hready & Haudio & Hcanvas & Hctx).
  unfold meydaHandler.doConvert. rewrite Hready.
  by rewrite !bool_decide_eq_true_2.
Qed.

(** A rejection by the audio decoder reaches the caller as it is. *)
Lemma meyda_decode_rejected f rest err :
  decodeAudioData host (bytes f) = Throw err ->
  meydaHandler.doConvert host this (f :: rest) inputFormat outputFormat
  = ([CallDecodeAudioData (bytes f)], Throw err).
Proof.
  intros Hf. rewrite meyda_doConvert_initialized. simpl. by rewrite Hf.
Qed.

(** A canvas that gives no blob makes the conversion fail with a fixed
    string. *)
Lemma meyda_canvas_declined f rest audio log drawn :
  decodeAudioData host (bytes f) = Normal audio ->
  meydaHandler.renderColumns host (sampleRate audio) (channelData0 audio)
    (meydaHandler.bufferSize / 2)
    (length (channelData0 audio) / meydaHandler.bufferSize) 0
    {| canvas_width := length (channelData0 audio) / meydaHandler.bufferSize;
       canvas_height := meydaHandler.bufferSize / 2;
       canvas_drawn := [] |}
    = (log, Normal drawn) ->
  toBlob host drawn (mime outputFormat) None = None ->
  outcome (meydaHandler.doConvert host this (f :: rest) inputFormat outputFormat)
  = Throw (thrown_str "Canvas output failed.").
Proof.
  intros Hf Hdrawn Hblob. rewrite meyda_doConvert_initialized.
  cbn [meydaHandler.convertLoop]. rewrite Hf, bind_call_normal.
  unfold outcome. cbn [snd]. rewrite Hdrawn.
  unfold bind at 1. cbn [fst snd]. by rewrite Hblob.
Qed.

(** The output of a file alone in its batch is named by what stands
    before the first dot of the input name. *)
Lemma meyda_single_output f audio log drawn blob :
  decodeAudioData host (bytes f) = Normal audio ->
  meydaHandler.renderColumns host (sampleRate audio) (channelData0 audio)
    (meydaHandler.bufferSize / 2)
    (length (channelData0 audio) / meydaHandler.bufferSize) 0
    {| canvas_width := length (channelData0 audio) / meydaHandler.bufferSize;
       canvas_height := meydaHandler.bufferSize / 2;
       canvas_drawn := [] |}
    = (log, Normal drawn) ->
  toBlob host drawn (mime outputFormat) None = Some blob ->
  outcome (meydaHandler.doConvert host this [f] inputFormat outputFormat)
  = Normal [ {| name := JsString.index0 (JsString.split_dot (name f))
                        +:+ "." +:+ extension outputFormat;
                bytes := blob_bytes blob |} ].
Proof.
  intros Hf Hdrawn Hblob. rewrite meyda_doConvert_initialized.
  cbn [meydaHandler.convertLoop]. rewrite Hf, bind_call_normal.
  unfold outcome. cbn [snd]. rewrite Hdrawn.
  unfold bind at 1. cbn [fst snd]. by rewrite Hblob.
Qed.

End MeydaConvert.

(** A successful probe leaves the Meyda handler initialized. *)
Lemma meyda_init_initialized {float} (host : Host float) (this : meydaHandler.t) :
  snd (meydaHandler.init host this) = Normal tt ->
  meydaInitialized (fst (meydaHandler.init host this)).
Proof.
  unfold meydaHandler.init, meydaInitialized.
  destruct (audioContext_error host); [done |].
  destruct (getContext_2d host); simpl; [| done].
  intros _. repeat split; by eexists.
Qed.

(** * Further properties of the handlers *)

(** ** The decode branch as a whole *)

Section DecodeBatch.
Context {float : Type} (host : Host float).
Context (inputFormat outputFormat : FileFormat).

(** A batch that is converted was accepted file by file. *)
Lemma decodeLoop_normal_inv files acc outs :
  outcome (HEICHandler.decodeLoop host inputFormat outputFormat files acc)
    = Normal outs ->
  Forall (decodes host inputFormat outputFormat) files.
Proof.
  revert acc. induction files as [|f files IH]; intros acc Hout; [constructor |].
  destruct (heic2any host (blobOf inputFormat f) (mime outputFormat)
              HEICHandler.quality) as [r | err] eqn:Hf.
  - rewrite (decodeLoop_accepted host _ _ _ _ _ r Hf) in Hout.
    constructor; [by exists r | by eapply IH].
  - by rewrite (decodeLoop_rejected host _ _ _ _ _ err Hf) in Hout.
Qed.

Lemma decodeLoop_calls_prefix files acc :
  calls (HEICHandler.decodeLoop host inputFormat outputFormat files acc)
    `prefix_of` map (heic2anyCall inputFormat outputFormat) files.
Proof.
  revert acc. induction files as [|f files IH]; intros acc; [done |].
  destruct (heic2any host (blobOf inputFormat f) (mime outputFormat)
              HEICHandler.quality) as [r | err] eqn:Hf.
  - rewrite (decodeLoop_accepted host _ _ _ _ _ r Hf). simpl.
    apply prefix_cons, IH.
  - rewrite (decodeLoop_rejected host _ _ _ _ _ err Hf). simpl.
    apply prefix_cons, prefix_nil.
Qed.

Lemma decodedFiles_bytes f r :
  map bytes (decodedFiles outputFormat f r) = map blob_bytes (blobsOf r).
Proof.
  unfold decodedFiles.
  assert (forall bs : list Blob,
            map bytes (HEICHandler.pushFrames
                         (JsString.replace_heic_ext (name f))
                         (extension outputFormat) bs 0 [])
            = map blob_bytes bs) as Hframes.
  { intros bs. rewrite pushFrames_imap.
    change (map bytes) with (fmap (M:=list) bytes). rewrite fmap_imap.
    rewrite (imap_ext _ (const blob_bytes)) by done.
    by rewrite imap_const. }
  destruct (blobsOf r) as [| b [| b' bs]]; [done | done | apply Hframes].
Qed.

Lemma decodeOutputs_bytes files :
  map bytes (flat_map (decodeOutputs host inputFormat outputFormat) files)
  = map blob_bytes (flat_map (decodedBlobs host inputFormat outputFormat) files).
Proof.
  induction files as [|f files IH]; [done |].
  simpl. rewrite !map_app, IH. f_equal.
  unfold decodeOutputs, decodedBlobs.
  destruct (heic2any host _ _ _); [apply decodedFiles_bytes | done].
Qed.

Lemma decodedFiles_extension f r :
  Forall (hasExtensionOf outputFormat) (decodedFiles outputFormat f r).
Proof.
  unfold decodedFiles.
  assert (forall bs : list Blob,
            Forall (hasExtensionOf outputFormat)
              (HEICHandler.pushFrames (JsString.replace_heic_ext (name f))
                 (extension outputFormat) bs 0 [])) as Hframes.
  { intros bs. rewrite pushFrames_imap. apply Forall_forall.
    intros o (j & b & -> & _)%elem_of_lookup_imap.
    exists (JsString.replace_heic_ext (name f) +:+ "_"
            +:+ JsString.padStart 3 "0" (JsString.of_nat (0 + j + 1))).
    unfold HEICHandler.frameName. simpl name.
    by rewrite !str_app_assoc. }
  destruct (blobsOf r) as [| b [| b' bs]]; [constructor | | apply Hframes].
  repeat constructor. by eexists.
Qed.

End DecodeBatch.

(** X1.  In the decode branch, [doConvert] returns a batch exactly when
    the decode capability accepts every file of the input: one rejected
    file makes the whole call fail, whatever was decoded before it. *)
Theorem decode_returns_iff_all_accepted {float} (host : Host float)
    (this : HEICHandler.t) (files : list FileData)
    (inputFormat outputFormat : FileFormat) :
  HEICHandler.isHeic inputFormat = true ->
  HEICHandler.isHeic outputFormat = false ->
  (exists outs,
     outcome (HEICHandler.doConvert host this files inputFormat outputFormat)
       = Normal outs)
  <-> Forall (decodes host inputFormat outputFormat) files.
Proof.
  intros Hin Hout. rewrite (doConvert_decode host this _ _ _ Hin Hout). split.
  - intros [outs Houts]. by eapply decodeLoop_normal_inv.
  - intros Hall. rewrite (decodeHeic_accepted host _ _ _ Hall). by eexists.
Qed.

Lemma decode_returns_iff_all_accepted_witness :
  (exists outs,
     outcome (HEICHandler.doConvert Sample.host
                (HEICHandler.new Sample.commonFormats)
                [Sample.photo1; Sample.broken] Sample.heic Sample.png)
       = Normal outs)
  <-> Forall (decodes Sample.host Sample.heic Sample.png)
             [Sample.photo1; Sample.broken].
Proof.
  apply (decode_returns_iff_all_accepted Sample.host
           (HEICHandler.new Sample.commonFormats)
           [Sample.photo1; Sample.broken] Sample.heic Sample.png);
    reflexivity.
Defined.

(** X2.  Whenever the decode branch returns, the payloads of the output
    files are the bytes of the blobs the decode capability returned, file
    by file and frame by frame in order, and the capability was called
    exactly once per input file, in order, with a blob of the input's
    container type, the output's container type and quality 0.92. *)
Theorem decode_outputs_are_decoded_blobs {float} (host : Host float)
    (this : HEICHandler.t) (files outs : list FileData)
    (inputFormat outputFormat : FileFormat) :
  HEICHandler.isHeic inputFormat = true ->
  HEICHandler.isHeic outputFormat = false ->
  outcome (HEICHandler.doConvert host this files inputFormat outputFormat)
    = Normal outs ->
  map bytes outs
    = map blob_bytes
        (flat_map (decodedBlobs host inputFormat outputFormat) files) /\
  calls (HEICHandler.doConvert host this files inputFormat outputFormat)
    = map (fun f => CallHeic2any
                      {| blob_bytes := bytes f; blob_type := mime inputFormat |}
                      (mime outputFormat) (92 # 100)) files.
Proof.
  intros Hin Hout Houts.
  rewrite (doConvert_decode host this _ _ _ Hin Hout) in *.
  pose proof (decodeLoop_normal_inv host _ _ _ _ _ Houts) as Hall.
  rewrite (decodeHeic_accepted host _ _ _ Hall) in *.
  unfold outcome, calls in *. simpl in *.
  injection Houts as <-. split; [apply decodeOutputs_bytes | done].
Qed.

Lemma decode_outputs_are_decoded_blobs_witness :
  map bytes [ {| name := "photo.png"; bytes := [x01]%byte |};
              {| name := "photo_001.png"; bytes := [x01]%byte |};
              {| name := "photo_002.png"; bytes := [x02]%byte |};
              {| name := "photo_003.png"; bytes := [x03]%byte |} ]
    = map blob_bytes
        (flat_map (decodedBlobs Sample.host Sample.heic Sample.png)
                  [Sample.photo1; Sample.photo3]) /\
  calls (HEICHandler.doConvert Sample.host
           (HEICHandler.new Sample.commonFormats)
           [Sample.photo1; Sample.photo3] Sample.heic Sample.png)
    = map (fun f => CallHeic2any
                      {| blob_bytes := bytes f; blob_type := mime Sample.heic |}
                      (mime Sample.png) (92 # 100))
          [Sample.photo1; Sample.photo3].
Proof.
  apply (decode_outputs_are_decoded_blobs Sample.host
           (HEICHandler.new Sample.commonFormats)
           [Sample.photo1; Sample.photo3] _ Sample.heic Sample.png);
    reflexivity.
Defined.

(** X3.  Whether it returns or fails, the decode branch submits the input
    files to the decode capability in order and each at most once: its log
    of host calls is an initial part of the list of one call per file, and
    holds no other kind of call. *)
Theorem decode_calls_in_order_at_most_once {float} (host : Host float)
    (this : HEICHandler.t) (files : list FileData)
    (inputFormat outputFormat : FileFormat) :
  HEICHandler.isHeic inputFormat = true ->
  HEICHandler.isHeic outputFormat = false ->
  calls (HEICHandler.doConvert host this files inputFormat outputFormat)
    `prefix_of` map (heic2anyCall inputFormat outputFormat) files.
Proof.
  intros Hin Hout. rewrite (doConvert_decode host this _ _ _ Hin Hout).
  apply decodeLoop_calls_prefix.
Qed.

Lemma decode_calls_in_order_at_most_once_witness :
  calls (HEICHandler.doConvert Sample.host
           (HEICHandler.new Sample.commonFormats)
           [Sample.photo1; Sample.broken; Sample.photo3] Sample.heic Sample.png)
    `prefix_of` map (heic2anyCall Sample.heic Sample.png)
                    [Sample.photo1; Sample.broken; Sample.photo3].
Proof.
  apply (decode_calls_in_order_at_most_once Sample.host
           (HEICHandler.new Sample.commonFormats)
           [Sample.photo1; Sample.broken; Sample.photo3]
           Sample.heic Sample.png);
    reflexivity.
Defined.

(** X4.  A file whose decode gives exactly one blob, be it a single blob
    or an array of one, contributes one output named
    [<base>.<extension of the output format>], without a sequence number,
    at its place in the batch. *)
Theorem decode_one_blob_has_no_sequence_number {float} (host : Host float)
    (this : HEICHandler.t) (pre post : list FileData) (f : FileData)
    (inputFormat outputFormat : FileFormat) (r : Heic2anyResult) (b : Blob) :
  HEICHandler.isHeic inputFormat = true ->
  HEICHandler.isHeic outputFormat = false ->
  Forall (decodes host inputFormat outputFormat) (pre ++ post) ->
  heic2any host (blobOf inputFormat f) (mime outputFormat) HEICHandler.quality
    = Normal r ->
  blobsOf r = [b] ->
  outcome (HEICHandler.doConvert host this (pre ++ f :: post)
             inputFormat outputFormat)
  = Normal (flat_map (decodeOutputs host inputFormat outputFormat) pre
            ++ [ {| name := JsString.replace_heic_ext (name f) +:+ "."
                            +:+ extension outputFormat;
                    bytes := blob_bytes b |} ]
            ++ flat_map (decodeOutputs host inputFormat outputFormat) post).
Proof.
  intros Hin Hout [Hpre Hpost]%Forall_app Hf Hb.
  assert (Forall (decodes host inputFormat outputFormat) (pre ++ f :: post)) as Hall.
  { apply Forall_app. split; [done |]. constructor; [by eexists | done]. }
  rewrite (doConvert_decode host this _ _ _ Hin Hout).
  rewrite (decodeHeic_accepted host _ _ _ Hall).
  unfold outcome. simpl. rewrite flat_map_app. simpl.
  by rewrite (decode_single_output host _ _ _ r b Hf Hb).
Qed.

Lemma decode_one_blob_has_no_sequence_number_witness :
  outcome (HEICHandler.doConvert Sample.hostArrays
             (HEICHandler.new Sample.commonFormats)
             ([Sample.photo3] ++ Sample.photo1 :: [])
             Sample.heic Sample.png)
  = Normal (flat_map (decodeOutputs Sample.hostArrays Sample.heic Sample.png)
                     [Sample.photo3]
            ++ [ {| name := JsString.replace_heic_ext (name Sample.photo1)
                            +:+ "." +:+ extension Sample.png;
                    bytes := blob_bytes {| blob_bytes := [x01]%byte;
                                           blob_type := "image/png" |} |} ]
            ++ flat_map (decodeOutputs Sample.hostArrays Sample.heic Sample.png)
                        []).
Proof.
  apply (decode_one_blob_has_no_sequence_number Sample.hostArrays
           (HEICHandler.new Sample.commonFormats)
           [Sample.photo3] [] Sample.photo1 Sample.heic Sample.png
           (BlobArray [ {| blob_bytes := [x01]%byte;
                           blob_type := "image/png" |} ])).
  - reflexivity.
  - reflexivity.
  - repeat constructor; eexists; reflexivity.
  - reflexivity.
  - reflexivity.
Defined.

(** X5.  A file for which the decode capability returns an empty array
    contributes no output file and raises no error: the batch is converted
    as if the file were not there, though the capability was called for
    it. *)
Theorem decode_empty_array_drops_file {float} (host : Host float)
    (this : HEICHandler.t) (pre post : list FileData) (f : FileData)
    (inputFormat outputFormat : FileFormat) :
  HEICHandler.isHeic inputFormat = true ->
  HEICHandler.isHeic outputFormat = false ->
  Forall (decodes host inputFormat outputFormat) (pre ++ post) ->
  heic2any host (blobOf inputFormat f) (mime outputFormat) HEICHandler.quality
    = Normal (BlobArray []) ->
  outcome (HEICHandler.doConvert host this (pre ++ f :: post)
             inputFormat outputFormat)
  = outcome (HEICHandler.doConvert host this (pre ++ post)
               inputFormat outputFormat) /\
  heic2anyCall inputFormat outputFormat f
    ∈ calls (HEICHandler.doConvert host this (pre ++ f :: post)
               inputFormat outputFormat).
Proof.
  intros Hin Hout Hothers Hf.
  assert (Forall (decodes host inputFormat outputFormat) (pre ++ f :: post)) as Hall.
  { apply Forall_app in Hothers as [Hpre Hpost].
    apply Forall_app. split; [done |]. constructor; [by eexists | done]. }
  rewrite !(doConvert_decode host this _ _ _ Hin Hout).
  rewrite (decodeHeic_accepted host _ _ _ Hall).
  rewrite (decodeHeic_accepted host _ _ _ Hothers).
  unfold outcome, calls. simpl. split.
  - rewrite !flat_map_app. simpl.
    unfold decodeOutputs at 2. by rewrite Hf.
  - rewrite map_app. simpl. apply elem_of_app. right. apply elem_of_cons. by left.
Qed.

Lemma decode_empty_array_drops_file_witness :
  outcome (HEICHandler.doConvert Sample.hostArrays
             (HEICHandler.new Sample.commonFormats)
             ([Sample.photo3] ++ Sample.broken :: [Sample.photo1])
             Sample.heic Sample.png)
  = outcome (HEICHandler.doConvert Sample.hostArrays
               (HEICHandler.new Sample.commonFormats)
               ([Sample.photo3] ++ [Sample.photo1])
               Sample.heic Sample.png) /\
  heic2anyCall Sample.heic Sample.png Sample.broken
    ∈ calls (HEICHandler.doConvert Sample.hostArrays
               (HEICHandler.new Sample.commonFormats)
               ([Sample.photo3] ++ Sample.broken :: [Sample.photo1])
               Sample.heic Sample.png).
Proof.
  apply (decode_empty_array_drops_file Sample.hostArrays
           (HEICHandler.new Sample.commonFormats)
           [Sample.photo3] [Sample.photo1] Sample.broken
           Sample.heic Sample.png).
  - reflexivity.
  - reflexivity.
  - repeat constructor; eexists; reflexivity.
  - reflexivity.
Defined.

(** ** Names *)

Lemma str_app_inj_r (a b c : string) : a +:+ c = b +:+ c -> a = b.
Proof.
  revert b. induction a as [|x a IH]; intros [|y b] H; [done | | |].
  - apply (f_equal String.length) in H.
    rewrite str_app_nil_l, str_app_cons in H. simpl in H.
    rewrite str_app_length in H. lia.
  - apply (f_equal String.length) in H.
    rewrite str_app_nil_l, str_app_cons in H. simpl in H.
    rewrite str_app_length in H. lia.
  - rewrite !str_app_cons in H. injection H as -> H. f_equal. by apply IH.
Qed.

Lemma frameName_inj (baseName ext : string) (i j : nat) :
  HEICHandler.frameName baseName i ext = HEICHandler.frameName baseName j ext ->
  i = j.
Proof.
  unfold HEICHandler.frameName. intros H.
  apply (inj (String.app baseName)) in H.
  rewrite !(str_app_cons "_") in H. injection H as H.
  rewrite !str_app_nil_l in H. apply str_app_inj_r in H.
  pose proof (parseDecimal_ZeroPadded3 _ _ (padStart_ZeroPadded3 (i + 1))) as Hi.
  pose proof (parseDecimal_ZeroPadded3 _ _ (padStart_ZeroPadded3 (j + 1))) as Hj.
  rewrite H in Hi. rewrite Hi in Hj. injection Hj. lia.
Qed.

(** X6.  The output files of one multi-frame input have pairwise distinct
    names, however many frames there are. *)
Theorem frame_names_distinct (baseName ext : string) (blobs : list Blob) :
  NoDup (map name (HEICHandler.pushFrames baseName ext blobs 0 [])).
Proof.
  rewrite pushFrames_imap.
  change (map name) with (fmap (M:=list) name). rewrite fmap_imap.
  rewrite (imap_ext _ (fun j _ => HEICHandler.frameName baseName j ext)) by done.
  rewrite imap_seq_0. apply NoDup_fmap_2_strong; [| apply NoDup_seq].
  intros i j _ _. apply frameName_inj.
Qed.

(** X7.  The decode branch changes a name when it takes its base name
    exactly when the name ends in [.heic] or [.heif] spelled in upper or
    lower case letters, in any mixture; every other name is left as it
    is. *)
Theorem heic_extension_stripped_iff (s : string) :
  JsString.replace_heic_ext s <> s
  <-> exists b e, s = b +:+ e /\ IsHeicExtension e.
Proof.
  split.
  - intros Hne.
    destruct (replace_heic_ext_base s) as [(e & He & Hs) | [Hs _]]; [| done].
    by exists (JsString.replace_heic_ext s), e.
  - intros (b & e & -> & He) Heq.
    rewrite replace_heic_ext_suffix in Heq
      by by apply matches_heic_ext_letters.
    apply (f_equal String.length) in Heq.
    rewrite str_app_length, (IsHeicExtension_length _ He) in Heq. lia.
Qed.

(** X8.  The base name of the decode branch is the name with its trailing
    HEIC/HEIF extension removed, once, and everything before it kept; a
    name with no such ending is its own base name. *)
Theorem replace_heic_ext_spec (s : string) :
  (exists e, JsString.matches_heic_ext e = true /\
             s = JsString.replace_heic_ext s +:+ e) \/
  (JsString.replace_heic_ext s = s /\
   forall b e, s = b +:+ e -> JsString.matches_heic_ext e = false).
Proof.
  induction s as [|c s IH].
  - right. split; [done |]. by intros [|??] [|??] H.
  - rewrite replace_heic_ext_eq.
    destruct (JsString.matches_heic_ext (String c s)) eqn:Hm.
    + left. by exists (String c s).
    + destruct IH as [(e & He & Hs) | [Hs Hnone]].
      * left. exists e. split; [done |]. rewrite str_app_cons. by f_equal.
      * right. rewrite Hs. split; [done |].
        intros [|x b] e H.
        -- rewrite str_app_nil_l in H. by subst e.
        -- rewrite str_app_cons in H. injection H as -> H. by eapply Hnone.
Qed.

(** ** The encode branch as a whole *)

Section EncodeBatch.
Context {float : Type} (host : Host float).
Context (inputFormat outputFormat : FileFormat).

(** One turn of the loop of [#encodeHeic], by what the host answers. *)
Lemma encodeLoop_cons f rest acc :
  HEICHandler.encodeLoop host inputFormat outputFormat (f :: rest) acc
  = match createImageBitmap host (blobOf inputFormat f) with
    | Throw err =>
        ([CallCreateImageBitmap (blobOf inputFormat f)],
         Throw (new_Error ("Could not decode source image " +:+ dquote
                           +:+ name f +:+ dquote +:+ ": " +:+ cause_text err)))
    | Normal bitmap =>
        if getContext_2d host then
          match toBlob host (canvasOf bitmap) (mime outputFormat)
                       (Some HEICHandler.quality) with
          | None =>
              ([CallCreateImageBitmap (blobOf inputFormat f);
                CallToBlob (canvasOf bitmap) (mime outputFormat)
                           (Some HEICHandler.quality)],
               Throw (new_Error HEICHandler.encodeUnsupported))
          | Some blob =>
              (CallCreateImageBitmap (blobOf inputFormat f)
                 :: CallToBlob (canvasOf bitmap) (mime outputFormat)
                               (Some HEICHandler.quality)
                 :: calls (HEICHandler.encodeLoop host inputFormat outputFormat rest
                             (acc ++ [ {| name := JsString.replace_last_ext (name f)
                                                  +:+ "." +:+ extension outputFormat;
                                          bytes := blob_bytes blob |} ])),
               outcome (HEICHandler.encodeLoop host inputFormat outputFormat rest
                          (acc ++ [ {| name := JsString.replace_last_ext (name f)
                                               +:+ "." +:+ extension outputFormat;
                                       bytes := blob_bytes blob |} ])))
          end
        else
          ([CallCreateImageBitmap (blobOf inputFormat f)],
           Throw (new_Error "Failed to obtain 2D canvas context."))
    end.
Proof.
  unfold blobOf, canvasOf. simpl.
  destruct (createImageBitmap host _) as [bitmap | err]; simpl; [| done].
  destruct (getContext_2d host); simpl; [| done].
  by destruct (toBlob host _ _ _).
Qed.

(** Every name the encode loop adds carries the output extension. *)
Lemma encodeLoop_extension files acc outs :
  Forall (hasExtensionOf outputFormat) acc ->
  outcome (HEICHandler.encodeLoop host inputFormat outputFormat files acc)
    = Normal outs ->
  Forall (hasExtensionOf outputFormat) outs.
Proof.
  revert acc. induction files as [|f files IH]; intros acc Hacc Hout.
  - simpl in Hout. unfold outcome in Hout. simpl in Hout. by injection Hout as <-.
  - rewrite encodeLoop_cons in Hout.
    destruct (createImageBitmap host _) as [bitmap | err]; [| done].
    destruct (getContext_2d host); [| done].
    destruct (toBlob host _ _ _) as [blob |]; [| done].
    unfold outcome in Hout at 1. simpl in Hout.
    eapply IH; [| exact Hout].
    apply Forall_app. split; [done |]. repeat constructor. by eexists.
Qed.

(** The files of an encoded batch and their outputs, pair by pair. *)
Lemma encodeOutputs_Forall2 files :
  Forall (encodes host inputFormat outputFormat) files ->
  Forall2 (fun f o =>
             exists bitmap blob,
               createImageBitmap host (blobOf inputFormat f) = Normal bitmap /\
               toBlob host (canvasOf bitmap) (mime outputFormat)
                      (Some HEICHandler.quality) = Some blob /\
               o = {| name := JsString.replace_last_ext (name f) +:+ "."
                              +:+ extension outputFormat;
                      bytes := blob_bytes blob |})
          files (flat_map (encodeOutputs host inputFormat outputFormat) files).
Proof.
  induction 1 as [|f files (bitmap & blob & Hbitmap & Hblob) _ IH]; [constructor |].
  simpl. unfold encodeOutputs at 1. rewrite Hbitmap, Hblob. simpl.
  constructor; [by exists bitmap, blob | exact IH].
Qed.

End EncodeBatch.

Lemma Forall_flat_map {A B} (P : B -> Prop) (g : A -> list B) (l : list A) :
  (forall x, Forall P (g x)) -> Forall P (flat_map g l).
Proof.
  intros Hg. induction l as [|x l IH]; simpl; [constructor |].
  apply Forall_app. by split.
Qed.

(** X9.  Whenever the HEIC handler really converts, that is in its decode
    and in its encode branch, every output file it returns is named with
    the extension of the output format after a dot. *)
Theorem converted_names_carry_output_extension {float} (host : Host float)
    (this : HEICHandler.t) (files outs : list FileData)
    (inputFormat outputFormat : FileFormat) :
  HEICHandler.isHeic inputFormat <> HEICHandler.isHeic outputFormat ->
  outcome (HEICHandler.doConvert host this files inputFormat outputFormat)
    = Normal outs ->
  Forall (hasExtensionOf outputFormat) outs.
Proof.
  intros Hne Houts.
  destruct (HEICHandler.isHeic inputFormat) eqn:Hin,
           (HEICHandler.isHeic outputFormat) eqn:Hout; try done.
  - rewrite (doConvert_decode host this _ _ _ Hin Hout) in Houts.
    pose proof (decodeLoop_normal_inv host _ _ _ _ _ Houts) as Hall.
    rewrite (decodeHeic_accepted host _ _ _ Hall) in Houts.
    unfold outcome in Houts. simpl in Houts. injection Houts as <-.
    apply Forall_flat_map. intros f. unfold decodeOutputs.
    destruct (heic2any host _ _ _); [apply decodedFiles_extension | constructor].
  - rewrite (doConvert_encode host this _ _ _ Hin Hout) in Houts.
    eapply encodeLoop_extension; [| exact Houts]. constructor.
Qed.

Lemma converted_names_carry_output_extension_witness :
  Forall (hasExtensionOf Sample.png)
    [ {| name := "photo.png"; bytes := [x01]%byte |};
      {| name := "photo_001.png"; bytes := [x01]%byte |};
      {| name := "photo_002.png"; bytes := [x02]%byte |};
      {| name := "photo_003.png"; bytes := [x03]%byte |} ].
Proof.
  apply (converted_names_carry_output_extension Sample.host
           (HEICHandler.new Sample.commonFormats)
           [Sample.photo1; Sample.photo3] _ Sample.heic Sample.png).
  - vm_compute. discriminate.
  - reflexivity.
Defined.

(** X10.  In the encode branch, with a 2D context and a host that gives a
    bitmap and output bytes for every file, [doConvert] returns exactly
    one output per input, in order: the bytes the canvas produced for the
    file's bitmap, under the input name with its last extension replaced
    by the extension of the output format. *)
Theorem encode_one_output_per_input {float} (host : Host float)
    (this : HEICHandler.t) (files : list FileData)
    (inputFormat outputFormat : FileFormat) :
  HEICHandler.isHeic inputFormat = false ->
  HEICHandler.isHeic outputFormat = true ->
  getContext_2d host = true ->
  Forall (encodes host inputFormat outputFormat) files ->
  exists outs,
    outcome (HEICHandler.doConvert host this files inputFormat outputFormat)
      = Normal outs /\
    length outs = length files /\
    forall i f, files !! i = Some f ->
      exists bitmap blob,
        createImageBitmap host (blobOf inputFormat f) = Normal bitmap /\
        toBlob host (canvasOf bitmap) (mime outputFormat)
               (Some HEICHandler.quality) = Some blob /\
        outs !! i
          = Some {| name := JsString.replace_last_ext (name f) +:+ "."
                            +:+ extension outputFormat;
                    bytes := blob_bytes blob |}.
Proof.
  intros Hin Hout Hctx Hall.
  rewrite (doConvert_encode host this _ _ _ Hin Hout).
  rewrite (encodeHeic_encoded host _ _ Hctx _ Hall).
  pose proof (encodeOutputs_Forall2 host _ _ _ Hall) as H2.
  eexists. split; [reflexivity |]. split.
  - symmetry. by eapply Forall2_length.
  - intros i f Hf.
    destruct (Forall2_lookup_l _ _ _ _ _ H2 Hf) as (o & Ho & bitmap & blob & ? & ? & ->).
    by exists bitmap, blob.
Qed.

Lemma encode_one_output_per_input_witness :
  exists outs,
    outcome (HEICHandler.doConvert Sample.hostSafari
               (HEICHandler.new Sample.commonFormats)
               [Sample.picture] Sample.png Sample.heic)
      = Normal outs /\
    length outs = length [Sample.picture] /\
    forall i f, [Sample.picture] !! i = Some f ->
      exists bitmap blob,
        createImageBitmap Sample.hostSafari (blobOf Sample.png f)
          = Normal bitmap /\
        toBlob Sample.hostSafari (canvasOf bitmap) (mime Sample.heic)
               (Some HEICHandler.quality) = Some blob /\
        outs !! i
          = Some {| name := JsString.replace_last_ext (name f) +:+ "."
                            +:+ extension Sample.heic;
                    bytes := blob_bytes blob |}.
Proof.
  apply (encode_one_output_per_input Sample.hostSafari
           (HEICHandler.new Sample.commonFormats)
           [Sample.picture] Sample.png Sample.heic).
  - reflexivity.
  - reflexivity.
  - reflexivity.
  - repeat constructor. do 2 eexists. split; reflexivity.
Defined.

Example encode_picture_name :
  outcome (HEICHandler.doConvert Sample.hostSafari
             (HEICHandler.new Sample.commonFormats)
             [Sample.picture] Sample.png Sample.heic)
  = Normal [ {| name := "picture.heic"; bytes := [x00; x00; x00; x18]%byte |} ].
Proof. reflexivity. Qed.

(** X11.  In the encode branch, when the files before [f] are encoded and
    [createImageBitmap] rejects [f], [doConvert] fails with the error
    [Could not decode source image "<name>": <cause>], naming the file and
    the cause. *)
Theorem encode_source_rejected_names_file {float} (host : Host float)
    (this : HEICHandler.t) (pre post : list FileData) (f : FileData)
    (inputFormat outputFormat : FileFormat) (err : JsThrown) :
  HEICHandler.isHeic inputFormat = false ->
  HEICHandler.isHeic outputFormat = true ->
  getContext_2d host = true ->
  Forall (encodes host inputFormat outputFormat) pre ->
  createImageBitmap host (blobOf inputFormat f) = Throw err ->
  outcome (HEICHandler.doConvert host this (pre ++ f :: post)
             inputFormat outputFormat)
  = Throw (new_Error ("Could not decode source image " +:+ dquote
                      +:+ name f +:+ dquote +:+ ": " +:+ cause_text err)).
Proof.
  intros Hin Hout Hctx Hpre Hf.
  rewrite (doConvert_encode host this _ _ _ Hin Hout).
  unfold HEICHandler.encodeHeic.
  rewrite (encodeLoop_prefix host _ _ Hctx _ _ _ Hpre).
  rewrite encodeLoop_cons. by rewrite Hf.
Qed.

Lemma encode_source_rejected_names_file_witness :
  outcome (HEICHandler.doConvert Sample.hostSafari
             (HEICHandler.new Sample.commonFormats)
             ([Sample.picture] ++ Sample.silence :: [Sample.picture])
             Sample.png Sample.heic)
  = Throw (new_Error ("Could not decode source image " +:+ dquote
                      +:+ name Sample.silence +:+ dquote +:+ ": "
                      +:+ cause_text
                            (new_Error "The source image could not be decoded."))).
Proof.
  apply (encode_source_rejected_names_file Sample.hostSafari
           (HEICHandler.new Sample.commonFormats)
           [Sample.picture] [Sample.picture] Sample.silence
           Sample.png Sample.heic).
  - reflexivity.
  - reflexivity.
  - reflexivity.
  - repeat constructor. do 2 eexists. split; reflexivity.
  - reflexivity.
Defined.

(** X12.  In the encode branch, when no 2D context can be obtained, the
    first file whose bitmap is decoded makes [doConvert] fail with
    "Failed to obtain 2D canvas context."; the canvas is never asked for
    output bytes. *)
Theorem encode_without_context_fails {float} (host : Host float)
    (this : HEICHandler.t) (f : FileData) (rest : list FileData)
    (inputFormat outputFormat : FileFormat) (bitmap : ImageBitmap) :
  HEICHandler.isHeic inputFormat = false ->
  HEICHandler.isHeic outputFormat = true ->
  getContext_2d host = false ->
  createImageBitmap host (blobOf inputFormat f) = Normal bitmap ->
  HEICHandler.doConvert host this (f :: rest) inputFormat outputFormat
  = ([CallCreateImageBitmap (blobOf inputFormat f)],
     Throw (new_Error "Failed to obtain 2D canvas context.")).
Proof.
  intros Hin Hout Hctx Hf.
  rewrite (doConvert_encode host this _ _ _ Hin Hout).
  unfold HEICHandler.encodeHeic. rewrite encodeLoop_cons. by rewrite Hf, Hctx.
Qed.

Lemma encode_without_context_fails_witness :
  HEICHandler.doConvert Sample.hostNoContext
    (HEICHandler.new Sample.commonFormats)
    (Sample.picture :: [Sample.picture]) Sample.png Sample.heic
  = ([CallCreateImageBitmap (blobOf Sample.png Sample.picture)],
     Throw (new_Error "Failed to obtain 2D canvas context.")).
Proof.
  apply (encode_without_context_fails Sample.hostNoContext
           (HEICHandler.new Sample.commonFormats)
           Sample.picture [Sample.picture] Sample.png Sample.heic
           {| bitmap_width := 1; bitmap_height := 1;
              bitmap_pixels := [x89; x50]%byte |});
    reflexivity.
Defined.

Lemma replace_last_ext_eq (s : string) :
  JsString.replace_last_ext s
  = if JsString.matches_last_ext s then EmptyString
    else match s with
         | EmptyString => EmptyString
         | String c r => String c (JsString.replace_last_ext r)
         end.
Proof. by destruct s. Qed.

Lemma matches_last_ext_iff (c : ascii) (r : string) :
  JsString.matches_last_ext (String c r) = true
  <-> c = "."%char /\ isLastExt r.
Proof.
  unfold isLastExt. destruct r as [|d r].
  - simpl. split; [done | by intros [_ [? _]]].
  - cbn [JsString.matches_last_ext]. unfold JsString.is_dot at 1.
    rewrite andb_true_iff, Ascii.eqb_eq. split.
    + by intros [-> ?].
    + by intros [-> [_ ?]].
Qed.

(** X13.  The base name of the encode branch is the name cut at its last
    dot when at least one character follows that dot; a name without such
    an ending (no dot at all, or a dot as last character) is its own base
    name. *)
Theorem replace_last_ext_spec (s : string) :
  (exists b e, isLastExt e /\ s = b +:+ "." +:+ e /\
               JsString.replace_last_ext s = b) \/
  (JsString.replace_last_ext s = s /\
   forall b e, s = b +:+ "." +:+ e -> ~ isLastExt e).
Proof.
  induction s as [|c s IH].
  - right. split; [done |]. by intros [|??] e H.
  - rewrite replace_last_ext_eq.
    destruct (JsString.matches_last_ext (String c s)) eqn:Hm.
    + apply matches_last_ext_iff in Hm as [-> He].
      left. by exists EmptyString, s.
    + destruct IH as [(b & e & He & Hs & Hb) | [Hs Hnone]].
      * left. exists (String c b), e. rewrite Hb, str_app_cons. by subst s.
      * right. rewrite Hs. split; [done |].
        intros [|x b] e H He.
        -- rewrite str_app_nil_l in H. injection H as -> ->.
           assert (JsString.matches_last_ext (String "." e) = true) as Hm'
             by by apply matches_last_ext_iff.
           rewrite str_app_nil_l in Hm. congruence.
        -- rewrite str_app_cons in H. injection H as -> H. by eapply Hnone.
Qed.

(** ** Pairs outside the HEIC family, and empty batches *)

(** X14.  When neither the input nor the output descriptor carries a
    HEIC/HEIF key, [doConvert] falls through to its last statement: it
    calls no codec and returns the input files as they are, names and
    bytes unchanged. *)
Theorem non_heic_pair_returns_input {float} (host : Host float)
    (this : HEICHandler.t) (files : list FileData)
    (inputFormat outputFormat : FileFormat) :
  HEICHandler.isHeic inputFormat = false ->
  HEICHandler.isHeic outputFormat = false ->
  HEICHandler.doConvert host this files inputFormat outputFormat
  = ([], Normal files).
Proof.
  intros Hin Hout. unfold HEICHandler.doConvert. rewrite Hin, Hout. simpl.
  by rewrite passthrough_map_id.
Qed.

Lemma non_heic_pair_returns_input_witness :
  HEICHandler.doConvert Sample.host (HEICHandler.new Sample.commonFormats)
    [Sample.picture; Sample.song] Sample.jpeg Sample.png
  = ([], Normal [Sample.picture; Sample.song]).
Proof.
  apply (non_heic_pair_returns_input Sample.host
           (HEICHandler.new Sample.commonFormats)
           [Sample.picture; Sample.song] Sample.jpeg Sample.png);
    reflexivity.
Defined.

(** X15.  An empty batch is converted to an empty batch without any host
    call, in every branch of the HEIC handler and whatever the host can
    do. *)
Theorem heic_empty_batch {float} (host : Host float) (this : HEICHandler.t)
    (inputFormat outputFormat : FileFormat) :
  HEICHandler.doConvert host this [] inputFormat outputFormat = ([], Normal []).
Proof.
  unfold HEICHandler.doConvert.
  by destruct (HEICHandler.isHeic inputFormat),
              (HEICHandler.isHeic outputFormat).
Qed.

(** ** Probing the Meyda handler *)

Lemma concat_replicate_comm {A} (n : nat) (x : list A) :
  concat (replicate n x) ++ x = x ++ concat (replicate n x).
Proof.
  induction n as [|n IH]; simpl; [by rewrite app_nil_r |].
  by rewrite <- app_assoc, IH.
Qed.

(** X16.  After [n] probes of a freshly constructed Meyda handler the
    capability set is the three image descriptors followed by [n] copies
    of the playable audio descriptors: every probe appends them again, and
    nothing is ever removed or reordered. *)
Theorem meyda_capabilities_after_probes {float} (host : Host float) (n : nat) :
  meydaHandler.supportedFormats (probes host n meydaHandler.new)
  = [meydaHandler.png; meydaHandler.jpeg; meydaHandler.webp]
    ++ concat (replicate n (playableAudio host)).
Proof.
  induction n as [|n IH]; [done |].
  cbn [probes]. rewrite meyda_init_formats, IH. cbn [replicate concat].
  by rewrite <- app_assoc, concat_replicate_comm.
Qed.

Lemma meyda_not_ready_refused {float} (host : Host float)
    (this : meydaHandler.t) files inputFormat outputFormat :
  meydaHandler.ready this = false ->
  meydaHandler.doConvert host this files inputFormat outputFormat
  = ([], Throw (thrown_str "Handler not initialized!")).
Proof. intros Hready. unfold meydaHandler.doConvert. by rewrite Hready. Qed.

(** X17.  A probe of a Meyda handler that is not ready fails either with
    what [new AudioContext()] throws or, when that constructor succeeds and
    no 2D context can be obtained, with "Failed to create 2D rendering
    context.".  Either way the playable audio descriptors have already
    been appended, the handler stays not ready, and every later conversion
    is refused with "Handler not initialized!". *)
Theorem meyda_failed_probe {float} (host : Host float) (this : meydaHandler.t)
    (err : JsThrown) :
  meydaHandler.ready this = false ->
  snd (meydaHandler.init host this) = Throw err ->
  (audioContext_error host = Some err \/
   (audioContext_error host = None /\ getContext_2d host = false /\
    err = thrown_str "Failed to create 2D rendering context.")) /\
  meydaHandler.supportedFormats (fst (meydaHandler.init host this))
    = meydaHandler.supportedFormats this ++ playableAudio host /\
  meydaHandler.ready (fst (meydaHandler.init host this)) = false /\
  forall (host' : Host float) files inputFormat outputFormat,
    meydaHandler.doConvert host' (fst (meydaHandler.init host this))
      files inputFormat outputFormat
    = ([], Throw (thrown_str "Handler not initialized!")).
Proof.
  intros Hready Hfail.
  assert (meydaHandler.ready (fst (meydaHandler.init host this)) = false) as Hstill.
  { revert Hfail. unfold meydaHandler.init.
    destruct (audioContext_error host); [done |].
    by destruct (getContext_2d host). }
  split; [| split; [apply meyda_init_formats | split; [done |]]].
  - revert Hfail. unfold meydaHandler.init.
    destruct (audioContext_error host) as [e |]; simpl.
    + intros [= ->]. by left.
    + destruct (getContext_2d host); simpl; [done |].
      intros [= <-]. by right.
  - intros host' files inputFormat outputFormat.
    by apply meyda_not_ready_refused.
Qed.

Lemma meyda_failed_probe_witness :
  (audioContext_error Sample.hostNoContext
     = Some (thrown_str "Failed to create 2D rendering context.") \/
   (audioContext_error Sample.hostNoContext = None /\
    getContext_2d Sample.hostNoContext = false /\
    thrown_str "Failed to create 2D rendering context."
      = thrown_str "Failed to create 2D rendering context.")) /\
  meydaHandler.supportedFormats
    (fst (meydaHandler.init Sample.hostNoContext meydaHandler.new))
    = meydaHandler.supportedFormats meydaHandler.new
      ++ playableAudio Sample.hostNoContext /\
  meydaHandler.ready
    (fst (meydaHandler.init Sample.hostNoContext meydaHandler.new)) = false /\
  forall (host' : Host Z) files inputFormat outputFormat,
    meydaHandler.doConvert host'
      (fst (meydaHandler.init Sample.hostNoContext meydaHandler.new))
      files inputFormat outputFormat
    = ([], Throw (thrown_str "Handler not initialized!")).
Proof.
  apply (meyda_failed_probe Sample.hostNoContext meydaHandler.new
           (thrown_str "Failed to create 2D rendering context."));
    reflexivity.
Defined.

Example meyda_probe_without_audio_context :
  meydaHandler.init Sample.hostNoAudio meydaHandler.new
  = ({| meydaHandler.handlerName := "meyda";
        meydaHandler.supportedFormats :=
          [meydaHandler.png; meydaHandler.jpeg; meydaHandler.webp;
           meydaHandler.wav];
        meydaHandler.ready := false;
        meydaHandler.audioContext := None;
        meydaHandler.canvas := None;
        meydaHandler.ctx := None |},
     Throw (new_Error "The number of hardware contexts provided has been reached.")).
Proof. reflexivity. Qed.

(** X18.  A probe of the Meyda handler succeeds only if the audio context
    was constructed and a 2D context obtained, and whenever it succeeds
    the handler it leaves is ready and passes the guard of [doConvert]: an
    empty batch is converted to an empty batch, and for a non-empty batch
    the first thing done is to submit the first file to the audio
    decoder. *)
Theorem meyda_successful_probe {float} (host : Host float) (this : meydaHandler.t) :
  snd (meydaHandler.init host this) = Normal tt ->
  audioContext_error host = None /\
  getContext_2d host = true /\
  meydaHandler.ready (fst (meydaHandler.init host this)) = true /\
  forall (host' : Host float) inputFormat outputFormat,
    meydaHandler.doConvert host' (fst (meydaHandler.init host this))
      [] inputFormat outputFormat = ([], Normal []) /\
    forall f rest,
      exists log,
        calls (meydaHandler.doConvert host' (fst (meydaHandler.init host this))
                 (f :: rest) inputFormat outputFormat)
        = CallDecodeAudioData (bytes f) :: log.
Proof.
  intros Hinit.
  pose proof (meyda_init_initialized host this Hinit) as Hok.
  split; [| split; [| split; [by destruct Hok |]]].
  - revert Hinit. unfold meydaHandler.init.
    by destruct (audioContext_error host).
  - revert Hinit. unfold meydaHandler.init.
    destruct (audioContext_error host); [done |].
    by destruct (getContext_2d host).
  - intros host' inputFormat outputFormat. split.
    + by rewrite (meyda_doConvert_initialized host' _ _ _ Hok).
    + intros f rest. rewrite (meyda_doConvert_initialized host' _ _ _ Hok).
      cbn [meydaHandler.convertLoop].
      destruct (decodeAudioData host' (bytes f)) as [audio | err].
      * rewrite bind_call_normal. by eexists.
      * rewrite bind_call_throw. by eexists.
Qed.

Lemma meyda_successful_probe_witness :
  audioContext_error Sample.host = None /\
  getContext_2d Sample.host = true /\
  meydaHandler.ready (fst (meydaHandler.init Sample.host meydaHandler.new))
    = true /\
  forall (host' : Host Z) inputFormat outputFormat,
    meydaHandler.doConvert host'
      (fst (meydaHandler.init Sample.host meydaHandler.new))
      [] inputFormat outputFormat = ([], Normal []) /\
    forall f rest,
      exists log,
        calls (meydaHandler.doConvert host'
                 (fst (meydaHandler.init Sample.host meydaHandler.new))
                 (f :: rest) inputFormat outputFormat)
        = CallDecodeAudioData (bytes f) :: log.
Proof.
  apply (meyda_successful_probe Sample.host meydaHandler.new). reflexivity.
Defined.

(** ** Drawing the spectrogram *)

Lemma low_bytes_recompose (v : Z) :
  (Z.land v 255 + 256 * Z.land (Z.shiftr v 8) 255
   + 65536 * Z.land (Z.shiftr v 16) 255 = v mod 16777216)%Z /\
  (0 <= Z.land v 255 <= 255)%Z /\
  (0 <= Z.land (Z.shiftr v 8) 255 <= 255)%Z /\
  (0 <= Z.land (Z.shiftr v 16) 255 <= 255)%Z.
Proof.
  change 255%Z with (Z.ones 8).
  rewrite !Z.land_ones, !Z.shiftr_div_pow2 by lia.
  change (2 ^ 8)%Z with 256%Z. change (2 ^ 16)%Z with 65536%Z.
  change (Z.ones 8) with 255%Z.
  pose proof (Z.mod_pos_bound v 256 ltac:(lia)) as H0.
  pose proof (Z.mod_pos_bound (v / 256) 256 ltac:(lia)) as H1.
  pose proof (Z.mod_pos_bound (v / 65536) 256 ltac:(lia)) as H2.
  split; [| lia].
  assert (v / 65536 = v / 256 / 256)%Z as Hdiv
    by (rewrite Z.div_div by lia; reflexivity).
  pose proof (Z.div_mod v 256 ltac:(lia)) as E0.
  pose proof (Z.div_mod (v / 256) 256 ltac:(lia)) as E1.
  pose proof (Z.div_mod (v / 65536) 256 ltac:(lia)) as E2.
  rewrite <- Hdiv in E1.
  apply (Z.mod_unique_pos _ _ (v / 65536 / 256)); lia.
Qed.

(** X19.  For every spectrum value the Meyda handler writes four bytes:
    red, green and blue are the three low bytes, lowest first, of the
    value scaled by 16777215 and floored (together they give that integer
    modulo 2^24), and alpha is 255. *)
Theorem pixel_is_24_bit_colour {float} (host : Host float) (x : float) :
  exists r g b : Z,
    meydaHandler.pixel host x = [r; g; b; 255%Z] /\
    (0 <= r <= 255)%Z /\ (0 <= g <= 255)%Z /\ (0 <= b <= 255)%Z /\
    (r + 256 * g + 65536 * b = floor_mul host x 16777215 mod 2 ^ 24)%Z.
Proof.
  unfold meydaHandler.pixel.
  destruct (low_bytes_recompose (floor_mul host x 16777215)) as (E & ? & ? & ?).
  do 3 eexists. split; [reflexivity |]. repeat split; try lia.
  change (2 ^ 24)%Z with 16777216%Z. exact E.
Qed.

Section Columns.
Context {float : Type} (host : Host float).



End Columns.



(** ** The Meyda handler's loop over the batch *)

Section MeydaBatch.
Context {float : Type} (host : Host float).
Context (outputFormat : FileFormat).

(** One turn of the loop of [doConvert], by what the host answers. *)
Lemma convertLoop_cons f rest acc :
  meydaHandler.convertLoop host outputFormat (f :: rest) acc
  = match decodeAudioData host (bytes f) with
    | Throw err => ([CallDecodeAudioData (bytes f)], Throw err)
    | Normal audio =>
        match meydaDraw host audio with
        | (log, Throw err) => (CallDecodeAudioData (bytes f) :: log, Throw err)
        | (log, Normal drawn) =>
            match toBlob host drawn (mime outputFormat) None with
            | None =>
                (CallDecodeAudioData (bytes f)
                   :: log ++ [CallToBlob drawn (mime outputFormat) None],
                 Throw (thrown_str "Canvas output failed."))
            | Some blob =>
                (CallDecodeAudioData (bytes f)
                   :: log ++ CallToBlob drawn (mime outputFormat) None
                   :: calls (meydaHandler.convertLoop host outputFormat rest
                               (acc ++ [ {| name := JsString.index0
                                                      (JsString.split_dot (name f))
                                                    +:+ "." +:+ extension outputFormat;
                                            bytes := blob_bytes blob |} ])),
                 outcome (meydaHandler.convertLoop host outputFormat rest
                            (acc ++ [ {| name := JsString.index0
                                                   (JsString.split_dot (name f))
                                                 +:+ "." +:+ extension outputFormat;
                                         bytes := blob_bytes blob |} ])))
            end
        end
    end.
Proof.
  cbn [meydaHandler.convertLoop]. unfold meydaDraw.
  destruct (decodeAudioData host (bytes f)) as [audio | err]; [| done].
  rewrite bind_call_normal. unfold calls, outcome.
  destruct (meydaHandler.renderColumns host _ _ _ _ _ _) as [log [drawn | err]];
    [| done].
  unfold bind at 1 3. cbn [fst snd].
  by destruct (toBlob host drawn (mime outputFormat) None).
Qed.




End MeydaBatch.



(** X22.  Audio shorter than one window of 2048 samples is not analysed at
    all: after the decoder, the only host call is the request to encode an
    empty canvas 0 pixels wide and 1024 high. *)
Theorem meyda_short_audio_draws_nothing {float} (host : Host float)
    (this : meydaHandler.t) (f : FileData)
    (inputFormat outputFormat : FileFormat) (audio : AudioBuffer float) :
  meydaInitialized this ->
  decodeAudioData host (bytes f) = Normal audio ->
  length (channelData0 audio) < 2048 ->
  calls (meydaHandler.doConvert host this [f] inputFormat outputFormat)
  = [ CallDecodeAudioData (bytes f);
      CallToBlob {| canvas_width := 0; canvas_height := 1024;
                    canvas_drawn := [] |}
                 (mime outputFormat) None ].
Proof.
  intros Hok Haudio Hshort.
  rewrite (meyda_doConvert_initialized host _ _ _ Hok).
  rewrite convertLoop_cons, Haudio. unfold meydaDraw.
  change meydaHandler.bufferSize with 2048.
  rewrite (Nat.div_small _ 2048 Hshort).
  cbn [meydaHandler.renderColumns ret].
  by destruct (toBlob host _ _ _).
Qed.

Lemma meyda_short_audio_draws_nothing_witness :
  calls (meydaHandler.doConvert Sample.hostNoSpectrum Sample.meydaReady
           [Sample.blip] meydaHandler.wav meydaHandler.png)
  = [ CallDecodeAudioData (bytes Sample.blip);
      CallToBlob {| canvas_width := 0; canvas_height := 1024;
                    canvas_drawn := [] |}
                 (mime meydaHandler.png) None ].
Proof.
  apply (meyda_short_audio_draws_nothing Sample.hostNoSpectrum
           Sample.meydaReady Sample.blip meydaHandler.wav meydaHandler.png
           {| sampleRate := 44100%Z; channelData0 := repeat 0%Z 100 |}).
  - repeat split; by eexists.
  - reflexivity.
  - vm_compute. lia.
Defined.

(** X23.  When the feature extraction gives no [Float32Array], a file with
    at least one full window of audio makes the conversion fail with
    "Failed to extract audio features!" right after the decoder: the canvas
    is never asked for output bytes and no later file is decoded. *)
Theorem meyda_extraction_failure {float} (host : Host float)
    (this : meydaHandler.t) (f : FileData) (rest : list FileData)
    (inputFormat outputFormat : FileFormat) (audio : AudioBuffer float) :
  meydaInitialized this ->
  decodeAudioData host (bytes f) = Normal audio ->
  2048 <= length (channelData0 audio) ->
  (forall signal,
     extract host 2048 (sampleRate audio) "amplitudeSpectrum" signal = None) ->
  meydaHandler.doConvert host this (f :: rest) inputFormat outputFormat
  = ([CallDecodeAudioData (bytes f)],
     Throw (thrown_str "Failed to extract audio features!")).
Proof.
  intros Hok Haudio Hlong Hnone.
  rewrite (meyda_doConvert_initialized host _ _ _ Hok).
  rewrite convertLoop_cons, Haudio. unfold meydaDraw.
  change meydaHandler.bufferSize with 2048.
  destruct (length (channelData0 audio) / 2048) as [|n] eqn:Hn.
  - apply Nat.div_small_iff in Hn; lia.
  - cbn [meydaHandler.renderColumns].
    change meydaHandler.bufferSize with 2048. by rewrite Hnone.
Qed.

Lemma meyda_extraction_failure_witness :
  meydaHandler.doConvert Sample.hostNoSpectrum Sample.meydaReady
    (Sample.song :: [Sample.blip]) meydaHandler.wav meydaHandler.png
  = ([CallDecodeAudioData (bytes Sample.song)],
     Throw (thrown_str "Failed to extract audio features!")).
Proof.
  apply (meyda_extraction_failure Sample.hostNoSpectrum Sample.meydaReady
           Sample.song [Sample.blip] meydaHandler.wav meydaHandler.png
           {| sampleRate := 44100%Z; channelData0 := repeat 0%Z 2048 |}).
  - repeat split; by eexists.
  - reflexivity.
  - vm_compute. lia.
  - reflexivity.
Defined.

(** X24.  The stem the Meyda handler keeps of an input name,
    [name.split(".")[0]], holds no dot: it is the whole name when the name
    has no dot, and otherwise what stands before the first dot, the rest
    being dropped. *)
Theorem split_dot_first_spec (s : string) :
  JsString.no_dot (JsString.index0 (JsString.split_dot s)) = true /\
  (JsString.index0 (JsString.split_dot s) = s \/
   exists r, s = JsString.index0 (JsString.split_dot s) +:+ "." +:+ r).
Proof.
  induction s as [|c s [IHdot IH]]; [by split; [| left] |].
  rewrite index0_split_dot_cons.
  destruct (JsString.is_dot c) eqn:Hc.
  - split; [done |]. right. exists s.
    apply Ascii.eqb_eq in Hc as ->. reflexivity.
  - split; [simpl; by rewrite Hc |].
    destruct IH as [-> | [r Hr]]; [by left |].
    right. exists r. rewrite str_app_cons. by f_equal.
Qed.
